(** * Kinetic Conversion Efficiency: a shallow embedding of
      [kinetic_conversion_efficiency.py]

    The Python module steps a [SystemState] by fixed energy quanta until a
    budget is used up, and ranks systems by [S = velocity / energy_consumed].

    Numbers.  The program computes with Python floats, that is IEEE 754
    binary64.  The module is embedded twice.
    - In exact real arithmetic (the top-level definitions): every float is
      read as the real number it denotes and the operations are the exact
      ones on [R].  This reading carries the properties that do not depend
      on rounding: the metric's two branches, the empty run on a budget
      [<= 0], orderings and the sort, the benchmark catalog, and the closed
      form the specification states "in exact real arithmetic".
    - In binary64 (module [B64]): the same functions on Rocq's primitive
      floats, with rounding, overflow, underflow, signed zeros, infinities
      and nan.  This reading carries what the stepper computes, the number
      of iterations of the loop and the energy it reports, and the inputs on
      which the program differs from the exact reading.
    In both, [/] raises [ZeroDivisionError] on a zero divisor and
    [math.sqrt] raises [ValueError] on a negative argument.  In binary64
    [x ** 2] raises [OverflowError] when a finite [x] has an infinite
    square, and is otherwise taken to be the correctly rounded product
    [x * x]; [math.sqrt] is the correctly rounded root, which passes nan and
    [-0.0] through.

    Effects.  [apply_energy_step] mutates the state it is given; it is
    embedded as a function to the state after the call.  Exceptions are the
    [Raise] branch of [result].  The [while] loop of [simulate_system] is a
    [Fixpoint] on a fuel argument; [None] means the fuel ran out, and the
    theorems below show how much fuel is enough. *)

From Stdlib Require Import Floats.
From Stdlib Require Import Reals Lra Lia ZArith List String.
From Stdlib Require Import Zfloor Permutation Sorted.
Import ListNotations.

Open Scope R_scope.

(* ================================================================== *)
(** ** Python exceptions and the error monad *)

Inductive PyError : Type :=
| ZeroDivisionError
| ValueError.

Inductive result (A : Type) : Type :=
| Ok (a : A)
| Raise (e : PyError).

Arguments Ok {A} a.
Arguments Raise {A} e.

Definition bind {A B : Type} (m : result A) (k : A -> result B) : result B :=
  match m with
  | Ok a => k a
  | Raise e => Raise e
  end.

Notation "x <- m ;; k" := (bind m (fun x => k))
  (at level 61, m at next level, right associativity).

(** Float division: Python raises when the divisor is zero. *)
Definition py_div (a b : R) : result R :=
  if Req_dec_T b 0 then Raise ZeroDivisionError else Ok (a / b).

(** [math.sqrt]: a negative argument is a "math domain error". *)
Definition py_sqrt (x : R) : result R :=
  if Rlt_dec x 0 then Raise ValueError else Ok (sqrt x).

(* ================================================================== *)
(** ** Configuration *)

Definition ENERGY_QUANTUM : R := 5.

(* ================================================================== *)
(** ** Core data structures *)

Record SystemParameters : Type := mkParams {
  name : string;
  mass : R;
  efficiency : R;
  energy_budget : R;
  abstract : bool
}.

Record SystemState : Type := mkState {
  velocity : R;
  energy_consumed : R
}.

(** [SystemState()]: both fields default to [0.0]. *)
Definition SystemState0 : SystemState := mkState 0 0.

(* ================================================================== *)
(** ** Core physics / metric logic *)

(** The stepper in the exact reading: squares, quotients and sums are the
    real ones, so it neither rounds nor overflows.  What the stepper
    computes in binary64 is [B64.apply_energy_step] below, and the
    statements about its values are made there. *)
Definition apply_energy_step
    (state : SystemState) (params : SystemParameters) (energy_step : R)
    : result SystemState :=
  if Rge_dec (energy_consumed state) (energy_budget params) then Ok state
  else
    let usable_energy := efficiency params * energy_step in
    delta_v_squared <- py_div (2 * usable_energy) (mass params) ;;
    v <- py_sqrt (velocity state ^ 2 + delta_v_squared) ;;
    Ok (mkState v (energy_consumed state + energy_step)).

Definition kinetic_conversion_efficiency (state : SystemState) : result R :=
  if Rle_dec (energy_consumed state) 0 then Ok 0
  else py_div (velocity state) (energy_consumed state).

(* ================================================================== *)
(** ** Digital twin simulation *)

(** The dictionary returned by [simulate_system], one field per key:
    ["system"], ["final_velocity"], ["energy_consumed"], ["S"],
    ["abstract"]. *)
Record ResultRecord : Type := mkResult {
  res_system : string;
  res_final_velocity : R;
  res_energy_consumed : R;
  res_S : R;
  res_abstract : bool
}.

(** Computations that contain the loop: [None] is "fuel exhausted",
    [Some (Raise e)] an uncaught exception, [Some (Ok a)] a normal return. *)
Definition run (A : Type) : Type := option (result A).

Definition run_bind {A B : Type} (m : run A) (k : A -> run B) : run B :=
  match m with
  | None => None
  | Some (Raise e) => Some (Raise e)
  | Some (Ok a) => k a
  end.

Notation "x <~ m ;; k" := (run_bind m (fun x => k))
  (at level 61, m at next level, right associativity).

(** [while state.energy_consumed < params.energy_budget:
        apply_energy_step(state, params, ENERGY_QUANTUM)] *)
Fixpoint while_loop (fuel : nat) (params : SystemParameters)
    (state : SystemState) : run SystemState :=
  if Rlt_dec (energy_consumed state) (energy_budget params) then
    match fuel with
    | O => None
    | S fuel' =>
        match apply_energy_step state params ENERGY_QUANTUM with
        | Ok state' => while_loop fuel' params state'
        | Raise e => Some (Raise e)
        end
    end
  else Some (Ok state).

Definition simulate_system (fuel : nat) (params : SystemParameters)
    : run ResultRecord :=
  state <~ while_loop fuel params SystemState0 ;;
  Some (s <- kinetic_conversion_efficiency state ;;
        Ok (mkResult (name params) (velocity state) (energy_consumed state)
                     s (abstract params))).

(** The loop as a relation that counts its iterations:
    [loop_runs params n s s'] says that, entered in state [s], the loop
    leaves normally in state [s'] after exactly [n] executions of its
    body. *)
Inductive loop_runs (params : SystemParameters)
    : nat -> SystemState -> SystemState -> Prop :=
| loop_exit s :
    ~ energy_consumed s < energy_budget params ->
    loop_runs params 0 s s
| loop_iter n s s' s'' :
    energy_consumed s < energy_budget params ->
    apply_energy_step s params ENERGY_QUANTUM = Ok s' ->
    loop_runs params n s' s'' ->
    loop_runs params (S n) s s''.

(** A run of the stepper outside the driver: one call per element of
    [steps], each on the state the previous call left. *)
Fixpoint apply_steps (steps : list R) (params : SystemParameters)
    (state : SystemState) : result SystemState :=
  match steps with
  | [] => Ok state
  | energy_step :: rest =>
      state' <- apply_energy_step state params energy_step ;;
      apply_steps rest params state'
  end.

(** The state [k] steps of size [q] lead to from the fresh state when all
    of them are within budget (shown below). *)
Definition closed_state (p : SystemParameters) (q : R) (k : nat)
    : SystemState :=
  mkState (sqrt (INR k * (2 * (efficiency p * q) / mass p))) (INR k * q).

(** [ceil(energy_budget / quantum)] as an iteration count (a natural
    number: a ceiling below zero counts as no iteration). *)
Definition ceil_iterations (params : SystemParameters) : nat :=
  Z.to_nat (Zceil (energy_budget params / ENERGY_QUANTUM)).

(* ================================================================== *)
(** ** Experiment runner *)

(** Python's built-in [sorted(results, key=..., reverse=True)].  The
    language defines it as a stable sort, also under [reverse=True]:
    descending keys, equal keys in their original order.  It is modelled by
    stable insertion: an element moves right past the keys strictly greater
    than its own and stops in front of the first key that is not. *)
Fixpoint insert_reverse {A : Type} (key : A -> R) (x : A) (l : list A)
    : list A :=
  match l with
  | [] => [x]
  | y :: t =>
      if Rlt_dec (key x) (key y) then y :: insert_reverse key x t
      else x :: y :: t
  end.

Definition sorted_reverse {A : Type} (key : A -> R) (l : list A) : list A :=
  fold_right (insert_reverse key) [] l.

(** [for system in systems: results.append(simulate_system(system))] *)
Fixpoint simulate_all (fuel : nat) (systems : list SystemParameters)
    : run (list ResultRecord) :=
  match systems with
  | [] => Some (Ok [])
  | system :: rest =>
      r <~ simulate_system fuel system ;;
      results <~ simulate_all fuel rest ;;
      Some (Ok (r :: results))
  end.

Definition run_experiment (fuel : nat) (systems : list SystemParameters)
    : run (list ResultRecord) :=
  results <~ simulate_all fuel systems ;;
  Some (Ok (sorted_reverse res_S results)).

(** Descending keys: every element's key is at least the key of each
    element after it. *)
Definition descending {A : Type} (key : A -> R) (l : list A) : Prop :=
  StronglySorted (fun a b => key a >= key b) l.

(** The elements that carry one given key ([==] on the keys). *)
Definition same_key {A : Type} (key : A -> R) (v : R) (a : A) : bool :=
  if Req_dec_T (key a) v then true else false.

(** Parameters with which no step of the driver raises: the division is
    defined and the radicand of every step is non-negative. *)
Definition no_step_raises (p : SystemParameters) : Prop :=
  mass p <> 0 /\ 0 <= efficiency p / mass p.

(* ================================================================== *)
(** ** Reproducible benchmark setup *)

Definition agile_robot : SystemParameters :=
  mkParams "Agile Robot" 0.5 0.70 60.0 false.

Definition electric_vehicle : SystemParameters :=
  mkParams "Electric Vehicle" 1.0 0.80 100.0 false.

Definition ai_agent : SystemParameters :=
  mkParams "AI Agent (Abstract)" 1.0 0.50 50.0 true.

Definition benchmark_suite : list SystemParameters :=
  [agile_robot; electric_vehicle; ai_agent].

(* ================================================================== *)
(** ** The module in binary64

    The same functions on Rocq's primitive floats, which are IEEE 754
    binary64 with round-to-nearest-even, as Python's [float] is.  Every
    operation is the one Python performs, in the order the source performs
    it:
    - [a / b] raises [ZeroDivisionError] when [b == 0.0] (also for [-0.0]),
      and is the IEEE quotient otherwise;
    - [x ** 2] returns nan for nan and [inf] for an infinity, raises
      [OverflowError] when a finite [x] has an infinite square, and is
      otherwise taken to be the correctly rounded product [x * x];
    - [math.sqrt x] raises [ValueError] when the root is nan although [x] is
      not (that is, for [x < 0]), and is the IEEE square root otherwise;
    - [*] and [+] never raise; [<], [<=], [>=] are the IEEE comparisons,
      false as soon as one side is nan. *)

Module B64.

Local Open Scope float_scope.
#[local] Set Warnings "-inexact-float".

Inductive PyError : Type :=
| ZeroDivisionError
| ValueError
| OverflowError.

Inductive result (A : Type) : Type :=
| Ok (a : A)
| Raise (e : PyError).

Arguments Ok {A} a.
Arguments Raise {A} e.

Definition bind {A B : Type} (m : result A) (k : A -> result B) : result B :=
  match m with
  | Ok a => k a
  | Raise e => Raise e
  end.

Definition py_div (a b : float) : result float :=
  if b =? 0 then Raise ZeroDivisionError else Ok (a / b).

Definition py_pow2 (x : float) : result float :=
  if is_nan x then Ok x
  else if is_infinity x then Ok infinity
  else
    let r := x * x in
    if is_infinity r then Raise OverflowError else Ok r.

Definition py_sqrt (x : float) : result float :=
  let r := PrimFloat.sqrt x in
  if andb (is_nan r) (negb (is_nan x)) then Raise ValueError else Ok r.

Definition ENERGY_QUANTUM : float := 5.0.

Record SystemParameters : Type := mkParams {
  name : string;
  mass : float;
  efficiency : float;
  energy_budget : float;
  abstract : bool
}.

Record SystemState : Type := mkState {
  velocity : float;
  energy_consumed : float
}.

Definition SystemState0 : SystemState := mkState 0.0 0.0.

Definition apply_energy_step
    (state : SystemState) (params : SystemParameters) (energy_step : float)
    : result SystemState :=
  if energy_budget params <=? energy_consumed state then Ok state
  else
    let usable_energy := efficiency params * energy_step in
    bind (py_div (2.0 * usable_energy) (mass params)) (fun delta_v_squared =>
    bind (py_pow2 (velocity state)) (fun v_squared =>
    bind (py_sqrt (v_squared + delta_v_squared)) (fun v =>
    Ok (mkState v (energy_consumed state + energy_step))))).

Definition kinetic_conversion_efficiency (state : SystemState) : result float :=
  if energy_consumed state <=? 0.0 then Ok 0.0
  else py_div (velocity state) (energy_consumed state).

Record ResultRecord : Type := mkResult {
  res_system : string;
  res_final_velocity : float;
  res_energy_consumed : float;
  res_S : float;
  res_abstract : bool
}.

(** [None]: the fuel ran out before the loop was left. *)
Fixpoint while_loop (fuel : nat) (params : SystemParameters)
    (state : SystemState) : option (result SystemState) :=
  if energy_consumed state <? energy_budget params then
    match fuel with
    | O => None
    | S fuel' =>
        match apply_energy_step state params ENERGY_QUANTUM with
        | Ok state' => while_loop fuel' params state'
        | Raise e => Some (Raise e)
        end
    end
  else Some (Ok state).

Definition simulate_system (fuel : nat) (params : SystemParameters)
    : option (result ResultRecord) :=
  match while_loop fuel params SystemState0 with
  | None => None
  | Some (Raise e) => Some (Raise e)
  | Some (Ok state) =>
      Some (bind (kinetic_conversion_efficiency state) (fun s =>
            Ok (mkResult (name params) (velocity state)
                  (energy_consumed state) s (abstract params))))
  end.

Fixpoint apply_steps (steps : list float) (params : SystemParameters)
    (state : SystemState) : result SystemState :=
  match steps with
  | [] => Ok state
  | energy_step :: rest =>
      bind (apply_energy_step state params energy_step)
           (fun state' => apply_steps rest params state')
  end.

End B64.

(** Integers in binary64.  [shl_pos q n] is [q * 2^n]; [sf_of_pos q] is the
    normal form of the positive integer [q] with a 53-bit mantissa, and
    [float_of_Z n] the float whose value is the integer [n] (exact for
    [|n| < 2^53]). *)
Definition shl_pos (q : positive) (n : Z) : positive :=
  match n with Zpos p => Pos.iter xO q p | _ => q end.

Definition sf_of_pos (q : positive) : spec_float :=
  S754_finite false
    (shl_pos q (53 - Zpos (digits2_pos q))) (Zpos (digits2_pos q) - 53).

Definition float_of_pos (q : positive) : float := SF2Prim (sf_of_pos q).

Definition float_of_Z (n : Z) : float :=
  match n with
  | Z0 => 0%float
  | Zpos q => float_of_pos q
  | Zneg q => (- float_of_pos q)%float
  end.

(** A float "has sign [s]" when it is a zero, a finite number or an infinity
    with that sign bit; nan has none. *)
Definition sf_has_sign (s : bool) (x : spec_float) : Prop :=
  match x with
  | S754_zero s' | S754_infinity s' | S754_finite s' _ _ => s' = s
  | S754_nan => False
  end.

(** A float is "not below zero" when it is nan, a zero of either sign, or
    positive. *)
Definition sf_not_negative (x : spec_float) : Prop :=
  match x with
  | S754_infinity true | S754_finite true _ _ => False
  | _ => True
  end.

(* ================================================================== *)
(** ** Basic facts about the partial operations *)

Lemma py_div_ok (a b : R) : b <> 0 -> py_div a b = Ok (a / b).
Proof.
  intros Hb. unfold py_div. destruct (Req_dec_T b 0); [contradiction | reflexivity].
Qed.

Lemma py_div_zero (a : R) : py_div a 0 = Raise ZeroDivisionError.
Proof.
  unfold py_div. destruct (Req_dec_T 0 0) as [_ | H]; [reflexivity | now elim H].
Qed.

Lemma py_sqrt_ok (x : R) : 0 <= x -> py_sqrt x = Ok (sqrt x).
Proof.
  intros Hx. unfold py_sqrt. destruct (Rlt_dec x 0); [lra | reflexivity].
Qed.

Lemma py_sqrt_neg (x : R) : x < 0 -> py_sqrt x = Raise ValueError.
Proof.
  intros Hx. unfold py_sqrt. destruct (Rlt_dec x 0); [reflexivity | lra].
Qed.


Lemma apply_energy_step_in_budget s p e :
  energy_consumed s < energy_budget p ->
  apply_energy_step s p e =
    (delta_v_squared <- py_div (2 * (efficiency p * e)) (mass p) ;;
     v <- py_sqrt (velocity s ^ 2 + delta_v_squared) ;;
     Ok (mkState v (energy_consumed s + e))).
Proof.
  intros H. unfold apply_energy_step.
  destruct (Rge_dec _ _); [lra | reflexivity].
Qed.



Lemma delta_nonneg (m eta e : R) :
  0 < m -> 0 <= eta -> 0 <= e -> 0 <= 2 * (eta * e) / m.
Proof.
  intros Hm Heta He. apply Rmult_le_pos.
  - apply Rmult_le_pos; [lra | now apply Rmult_le_pos].
  - left. now apply Rinv_0_lt_compat.
Qed.


(* ================================================================== *)
(** ** The state stepper *)



(* ================================================================== *)
(** ** The metric calculator *)

(** C2.  [kinetic_conversion_efficiency] returns [0] when
    [energy_consumed <= 0] and [velocity / energy_consumed] otherwise; it
    never raises, and its value depends on the two fields of the state only,
    so a second call on the same state gives the same value. *)
Theorem kinetic_conversion_efficiency_spec (s : SystemState) :
  (energy_consumed s <= 0 -> kinetic_conversion_efficiency s = Ok 0) /\
  (~ energy_consumed s <= 0 ->
   kinetic_conversion_efficiency s = Ok (velocity s / energy_consumed s)) /\
  (forall s', velocity s' = velocity s ->
              energy_consumed s' = energy_consumed s ->
              kinetic_conversion_efficiency s' = kinetic_conversion_efficiency s).
Proof.
  unfold kinetic_conversion_efficiency. repeat split.
  - intros H. destruct (Rle_dec _ _); [reflexivity | contradiction].
  - intros H. destruct (Rle_dec _ _); [contradiction |].
    apply py_div_ok. lra.
  - intros s' Hv He. now rewrite Hv, He.
Qed.

Lemma kinetic_conversion_efficiency_spec_witness :
  kinetic_conversion_efficiency (mkState 3 0) = Ok 0 /\
  kinetic_conversion_efficiency (mkState 3 6) = Ok (3 / 6).
Proof.
  split.
  - apply (proj1 (kinetic_conversion_efficiency_spec (mkState 3 0))).
    cbn [energy_consumed]. lra.
  - apply (proj1 (proj2 (kinetic_conversion_efficiency_spec (mkState 3 6)))).
    cbn [energy_consumed]. lra.
Defined.

(* ================================================================== *)
(** ** Closed form of the stepping loop *)

Section ClosedForm.

Variable p : SystemParameters.
Variable q : R.

(** Squared velocity gained by one step of size [q]. *)
Let delta : R := 2 * (efficiency p * q) / mass p.

Hypothesis mass_nonzero : mass p <> 0.
Hypothesis delta_pos : 0 <= 2 * (efficiency p * q) / mass p.

Lemma closed_state_0 : closed_state p q 0 = SystemState0.
Proof.
  unfold closed_state, SystemState0. cbn [INR].
  now rewrite !Rmult_0_l, sqrt_0.
Qed.

Lemma closed_state_step (k : nat) :
  INR k * q < energy_budget p ->
  apply_energy_step (closed_state p q k) p q = Ok (closed_state p q (S k)).
Proof.
  intros Hin.
  assert (Hk : 0 <= INR k * delta).
  { apply Rmult_le_pos; [apply pos_INR | exact delta_pos]. }
  rewrite apply_energy_step_in_budget by exact Hin.
  rewrite (py_div_ok _ _ mass_nonzero). cbn [bind velocity closed_state].
  fold delta. rewrite (pow2_sqrt _ Hk).
  rewrite py_sqrt_ok by (unfold delta in *; lra). cbn [bind energy_consumed].
  unfold closed_state. fold delta. rewrite S_INR.
  f_equal. f_equal; [f_equal |]; cbn [energy_consumed]; ring.
Qed.

Lemma closed_state_steps (n k : nat) :
  (forall i : nat, (k <= i < k + n)%nat -> INR i * q < energy_budget p) ->
  apply_steps (repeat q n) p (closed_state p q k) = Ok (closed_state p q (k + n)).
Proof.
  revert k. induction n as [| n IH]; intros k Hin.
  - now rewrite Nat.add_0_r.
  - cbn [repeat apply_steps].
    rewrite closed_state_step by (apply Hin; lia). cbn [bind].
    rewrite IH by (intros i Hi; apply Hin; lia).
    f_equal. f_equal. lia.
Qed.

End ClosedForm.

(* ================================================================== *)
(** ** The while loop: relation and fuel *)

Lemma loop_runs_while p n s s' :
  loop_runs p n s s' ->
  forall fuel, (n <= fuel)%nat -> while_loop fuel p s = Some (Ok s').
Proof.
  induction 1 as [s Hout | n s s1 s2 Hin Hstep _ IH]; intros fuel Hfuel.
  - destruct fuel; cbn [while_loop];
      destruct (Rlt_dec _ _); try contradiction; reflexivity.
  - destruct fuel as [| fuel]; [lia |]. cbn [while_loop].
    destruct (Rlt_dec _ _); [| contradiction].
    rewrite Hstep. apply IH. lia.
Qed.

Lemma loop_runs_deterministic p n s s1 :
  loop_runs p n s s1 ->
  forall m s2, loop_runs p m s s2 -> n = m /\ s1 = s2.
Proof.
  induction 1 as [s Hout | n s sa sb Hin Hstep _ IH]; intros m s2 Hm.
  - inversion Hm; subst; [now split | contradiction].
  - inversion Hm as [| m' ? sa' ? Hin' Hstep' Hruns']; subst; [contradiction |].
    rewrite Hstep in Hstep'. injection Hstep' as <-.
    destruct (IH _ _ Hruns') as [-> ->]. now split.
Qed.

Lemma closed_state_loop_runs p :
  mass p <> 0 ->
  0 <= 2 * (efficiency p * ENERGY_QUANTUM) / mass p ->
  forall n k,
    (forall i : nat, (k <= i < k + n)%nat ->
                     INR i * ENERGY_QUANTUM < energy_budget p) ->
    energy_budget p <= INR (k + n) * ENERGY_QUANTUM ->
    loop_runs p n (closed_state p ENERGY_QUANTUM k)
                  (closed_state p ENERGY_QUANTUM (k + n)).
Proof.
  intros Hm Hd. induction n as [| n IH]; intros k Hin Hout.
  - rewrite Nat.add_0_r in *. constructor. cbn [closed_state energy_consumed]. lra.
  - apply (loop_iter p n _ (closed_state p ENERGY_QUANTUM (S k))).
    + cbn [closed_state energy_consumed]. apply Hin. lia.
    + apply closed_state_step; [exact Hm | exact Hd | apply Hin; lia].
    + replace (k + S n)%nat with (S k + n)%nat in * by lia.
      apply IH; [intros i Hi; apply Hin; lia | exact Hout].
Qed.

(** What [ceil(energy_budget / quantum)] means for the loop guard. *)
Lemma ceil_iterations_spec p :
  (forall i : nat, (i < ceil_iterations p)%nat ->
                   INR i * ENERGY_QUANTUM < energy_budget p) /\
  energy_budget p <= INR (ceil_iterations p) * ENERGY_QUANTUM.
Proof.
  unfold ceil_iterations, ENERGY_QUANTUM.
  pose proof (Zceil_bound (energy_budget p / 5)) as [Hlo Hhi].
  set (z := Zceil (energy_budget p / 5)) in *.
  destruct (Z_le_gt_dec z 0) as [Hz | Hz].
  - replace (Z.to_nat z) with 0%nat by lia. split; [intros i Hi; lia |].
    apply IZR_le in Hz. cbn [INR]. lra.
  - assert (HK : INR (Z.to_nat z) = IZR z).
    { rewrite INR_IZR_INZ. f_equal. lia. }
    split.
    + intros i Hi. apply Nat.le_succ_l, le_INR in Hi. rewrite S_INR, HK in Hi. lra.
    + rewrite HK. lra.
Qed.

Lemma kinetic_conversion_efficiency_total s :
  kinetic_conversion_efficiency s =
    Ok (if Rle_dec (energy_consumed s) 0 then 0
        else velocity s / energy_consumed s).
Proof.
  unfold kinetic_conversion_efficiency.
  destruct (Rle_dec _ _); [reflexivity | apply py_div_ok; lra].
Qed.

(** The loop of a system whose steps cannot raise. *)
Lemma while_loop_closed p :
  mass p <> 0 ->
  0 <= efficiency p / mass p ->
  loop_runs p (ceil_iterations p) SystemState0
    (closed_state p ENERGY_QUANTUM (ceil_iterations p)).
Proof.
  intros Hm Hq.
  assert (Hd : 0 <= 2 * (efficiency p * ENERGY_QUANTUM) / mass p).
  { unfold ENERGY_QUANTUM.
    replace (2 * (efficiency p * 5) / mass p)
      with (10 * (efficiency p / mass p)) by (unfold Rdiv; ring).
    lra. }
  destruct (ceil_iterations_spec p) as [Hin Hout].
  rewrite <- (closed_state_0 p ENERGY_QUANTUM).
  apply (closed_state_loop_runs p Hm Hd (ceil_iterations p) 0%nat).
  - intros i Hi. apply Hin. lia.
  - exact Hout.
Qed.

(* ================================================================== *)
(** ** The simulation driver *)

Lemma simulate_system_of_loop fuel p s :
  while_loop fuel p SystemState0 = Some (Ok s) ->
  simulate_system fuel p =
    Some (Ok (mkResult (name p) (velocity s) (energy_consumed s)
                (if Rle_dec (energy_consumed s) 0 then 0
                 else velocity s / energy_consumed s)
                (abstract p))).
Proof.
  intros Hloop. unfold simulate_system. rewrite Hloop. cbn [run_bind].
  now rewrite kinetic_conversion_efficiency_total.
Qed.

Lemma simulate_system_ok_inv fuel p r :
  simulate_system fuel p = Some (Ok r) ->
  exists s, while_loop fuel p SystemState0 = Some (Ok s) /\
            res_system r = name p /\
            res_final_velocity r = velocity s /\
            res_energy_consumed r = energy_consumed s /\
            kinetic_conversion_efficiency s = Ok (res_S r) /\
            res_abstract r = abstract p.
Proof.
  unfold simulate_system.
  destruct (while_loop fuel p SystemState0) as [[s | err] |];
    cbn [run_bind]; try discriminate.
  rewrite kinetic_conversion_efficiency_total. cbn [bind].
  intros [= <-]. exists s. cbn. now rewrite kinetic_conversion_efficiency_total.
Qed.

(** Outside the well-formed parameters the first iteration raises. *)
Lemma while_loop_first_step_raises p fuel :
  0 < energy_budget p ->
  (mass p = 0 ->
   while_loop (S fuel) p SystemState0 = Some (Raise ZeroDivisionError)) /\
  (mass p <> 0 -> efficiency p / mass p < 0 ->
   while_loop (S fuel) p SystemState0 = Some (Raise ValueError)).
Proof.
  intros Hb.
  assert (Hin : energy_consumed SystemState0 < energy_budget p) by (cbn; lra).
  split; [intros Hm | intros Hm Hq]; cbn [while_loop];
    destruct (Rlt_dec _ _); try contradiction;
    rewrite (apply_energy_step_in_budget _ _ _ Hin).
  - now rewrite Hm, py_div_zero.
  - rewrite (py_div_ok _ _ Hm). cbn [bind SystemState0 velocity].
    rewrite py_sqrt_neg; [reflexivity |].
    unfold ENERGY_QUANTUM.
    replace (2 * (efficiency p * 5) / mass p)
      with (10 * (efficiency p / mass p)) by (unfold Rdiv; ring).
    lra.
Qed.

(** C8.  With [energy_budget <= 0] the loop body is never executed and
    [simulate_system] returns, without raising, the zero record: final
    velocity [0], [energy_consumed] [0] and [S = 0]. *)
Theorem simulate_system_nonpositive_budget (p : SystemParameters) :
  energy_budget p <= 0 ->
  loop_runs p 0 SystemState0 SystemState0 /\
  (forall fuel,
     simulate_system fuel p = Some (Ok (mkResult (name p) 0 0 0 (abstract p)))).
Proof.
  intros Hb.
  assert (Hruns : loop_runs p 0 SystemState0 SystemState0).
  { constructor. cbn. lra. }
  split; [exact Hruns |]. intros fuel.
  rewrite (simulate_system_of_loop fuel p SystemState0).
  - cbn [SystemState0 velocity energy_consumed].
    destruct (Rle_dec 0 0); [reflexivity | lra].
  - apply (loop_runs_while _ _ _ _ Hruns). lia.
Qed.

Lemma simulate_system_nonpositive_budget_witness :
  loop_runs (mkParams "spent" 1 0.5 (-3) false) 0 SystemState0 SystemState0 /\
  (forall fuel,
     simulate_system fuel (mkParams "spent" 1 0.5 (-3) false) =
       Some (Ok (mkResult "spent" 0 0 0 false))).
Proof.
  apply (simulate_system_nonpositive_budget (mkParams "spent" 1 0.5 (-3) false)).
  cbn [energy_budget]. lra.
Defined.

(** The iteration count is the ceiling itself unless the budget lies a
    whole quantum or more below zero. *)
Lemma ceil_iterations_exact p :
  - ENERGY_QUANTUM < energy_budget p ->
  INR (ceil_iterations p) = IZR (Zceil (energy_budget p / ENERGY_QUANTUM)).
Proof.
  unfold ceil_iterations, ENERGY_QUANTUM. intros Hb.
  pose proof (Zceil_bound (energy_budget p / 5)) as [Hlo Hhi].
  set (z := Zceil (energy_budget p / 5)) in *.
  assert (Hz : (-1 < z)%Z) by (apply lt_IZR; lra).
  rewrite INR_IZR_INZ. f_equal. lia.
Qed.

(** C10.  Closed form.  For a positive mass, a positive efficiency and a
    positive quantum [q]: from the fresh state, [k] calls of
    [apply_energy_step] with step [q] that are all within budget leave
    velocity [sqrt(2 * efficiency * q * k / mass)] and [energy_consumed]
    [k * q]; and [simulate_system] reports the final velocity
    [sqrt(2 * efficiency * quantum * K / mass)], where [K] is
    [ceil(energy_budget / quantum)] counted as a number of iterations: the
    ceiling itself for every budget above [- quantum], and [0] below. *)
Theorem stepping_loop_closed_form (p : SystemParameters) (q : R) :
  0 < mass p -> 0 < efficiency p -> 0 < q ->
  (forall k : nat,
     (forall i : nat, (i < k)%nat -> INR i * q < energy_budget p) ->
     apply_steps (repeat q k) p SystemState0 =
       Ok (mkState (sqrt (2 * efficiency p * q * INR k / mass p)) (INR k * q))) /\
  (exists r,
     (forall fuel, (ceil_iterations p <= fuel)%nat ->
                   simulate_system fuel p = Some (Ok r)) /\
     res_final_velocity r =
       sqrt (2 * efficiency p * ENERGY_QUANTUM * INR (ceil_iterations p) / mass p) /\
     res_energy_consumed r = INR (ceil_iterations p) * ENERGY_QUANTUM) /\
  (- ENERGY_QUANTUM < energy_budget p ->
   INR (ceil_iterations p) = IZR (Zceil (energy_budget p / ENERGY_QUANTUM))).
Proof.
  intros Hm Heta Hq.
  assert (Hm' : mass p <> 0) by lra.
  assert (Hform : forall x k, INR k * (2 * (efficiency p * x) / mass p)
                              = 2 * efficiency p * x * INR k / mass p).
  { intros x k. unfold Rdiv. ring. }
  split; [| split; [| apply ceil_iterations_exact]].
  - intros k Hin.
    rewrite <- (closed_state_0 p q).
    rewrite (closed_state_steps p q Hm'
               (delta_nonneg _ _ _ Hm (Rlt_le _ _ Heta) (Rlt_le _ _ Hq)) k 0%nat)
      by (intros i Hi; apply Hin; lia).
    cbn [Nat.add]. unfold closed_state. now rewrite Hform.
  - assert (Hratio : 0 <= efficiency p / mass p).
    { apply Rlt_le, Rdiv_lt_0_compat; assumption. }
    pose proof (while_loop_closed p Hm' Hratio) as Hruns.
    eexists. split; [| split].
    + intros fuel Hfuel. apply simulate_system_of_loop.
      now apply (loop_runs_while _ _ _ _ Hruns).
    + cbn [res_final_velocity closed_state velocity]. now rewrite Hform.
    + reflexivity.
Qed.

Lemma stepping_loop_closed_form_witness :
  (forall k : nat,
     (forall i : nat, (i < k)%nat -> INR i * 5 < energy_budget agile_robot) ->
     apply_steps (repeat 5 k) agile_robot SystemState0 =
       Ok (mkState (sqrt (2 * efficiency agile_robot * 5 * INR k / mass agile_robot))
                   (INR k * 5))) /\
  (exists r,
     (forall fuel, (ceil_iterations agile_robot <= fuel)%nat ->
                   simulate_system fuel agile_robot = Some (Ok r)) /\
     res_final_velocity r =
       sqrt (2 * efficiency agile_robot * ENERGY_QUANTUM
             * INR (ceil_iterations agile_robot) / mass agile_robot) /\
     res_energy_consumed r = INR (ceil_iterations agile_robot) * ENERGY_QUANTUM) /\
  (- ENERGY_QUANTUM < energy_budget agile_robot ->
   INR (ceil_iterations agile_robot)
   = IZR (Zceil (energy_budget agile_robot / ENERGY_QUANTUM))).
Proof.
  apply (stepping_loop_closed_form agile_robot 5);
    cbn [agile_robot mass efficiency]; lra.
Defined.

(* ================================================================== *)
(** ** The sort of the experiment runner *)

Section SortedReverse.

Context {A : Type}.
Variable key : A -> R.

Lemma insert_reverse_nil x : insert_reverse key x [] = [x].
Proof. reflexivity. Qed.

Lemma insert_reverse_lt x y t :
  key x < key y ->
  insert_reverse key x (y :: t) = y :: insert_reverse key x t.
Proof.
  intros H. cbn [insert_reverse]. destruct (Rlt_dec _ _); [reflexivity | contradiction].
Qed.

Lemma insert_reverse_ge x y t :
  key y <= key x ->
  insert_reverse key x (y :: t) = x :: y :: t.
Proof.
  intros H. cbn [insert_reverse]. destruct (Rlt_dec _ _); [lra | reflexivity].
Qed.

Lemma insert_reverse_perm x l : Permutation (x :: l) (insert_reverse key x l).
Proof.
  induction l as [| y t IH]; cbn [insert_reverse]; [reflexivity |].
  destruct (Rlt_dec _ _); [| reflexivity].
  rewrite perm_swap. now apply perm_skip.
Qed.

Lemma sorted_reverse_perm l : Permutation l (sorted_reverse key l).
Proof.
  induction l as [| x l IH]; cbn; [constructor |].
  rewrite <- insert_reverse_perm. now apply perm_skip.
Qed.

Lemma insert_reverse_descending x l :
  descending key l -> descending key (insert_reverse key x l).
Proof.
  unfold descending. induction 1 as [| y t Ht IH Hy]; cbn [insert_reverse].
  - repeat constructor.
  - destruct (Rlt_dec (key x) (key y)) as [Hlt | Hge].
    + constructor; [exact IH |].
      rewrite <- insert_reverse_perm. constructor; [lra | exact Hy].
    + constructor; [now constructor |].
      constructor; [lra |].
      revert Hy. apply Forall_impl. intros z Hz. lra.
Qed.

Lemma sorted_reverse_descending l : descending key (sorted_reverse key l).
Proof.
  induction l as [| x l IH]; cbn; [constructor |].
  now apply insert_reverse_descending.
Qed.

Lemma descending_split l1 a l2 b l3 :
  descending key (l1 ++ a :: l2 ++ b :: l3) -> key a >= key b.
Proof.
  unfold descending. induction l1 as [| x l1 IH]; cbn [app]; intros H.
  - apply StronglySorted_inv in H as [_ H].
    rewrite Forall_forall in H. apply H.
    apply in_or_app. right. now left.
  - apply StronglySorted_inv in H as [H _]. now apply IH.
Qed.

(** Stability: an element passes only keys strictly greater than its
    own, so the elements of any one key keep their order. *)
Lemma insert_reverse_stable v x l :
  filter (same_key key v) (insert_reverse key x l) = filter (same_key key v) (x :: l).
Proof.
  induction l as [| y t IH]; cbn [insert_reverse]; [reflexivity |].
  destruct (Rlt_dec (key x) (key y)) as [Hlt | Hge]; [| reflexivity].
  cbn [filter] in *. rewrite IH. unfold same_key.
  destruct (Req_dec_T (key x) v), (Req_dec_T (key y) v); try reflexivity. lra.
Qed.

Lemma sorted_reverse_stable v l :
  filter (same_key key v) (sorted_reverse key l) = filter (same_key key v) l.
Proof.
  induction l as [| x l IH]; cbn [sorted_reverse fold_right]; [reflexivity |].
  rewrite insert_reverse_stable. cbn [filter].
  fold (sorted_reverse key l). now rewrite IH.
Qed.

End SortedReverse.

(* ================================================================== *)
(** ** The experiment runner *)

Lemma simulate_system_closed p :
  no_step_raises p ->
  forall fuel, (ceil_iterations p <= fuel)%nat ->
    simulate_system fuel p =
      Some (Ok (mkResult (name p)
                  (velocity (closed_state p ENERGY_QUANTUM (ceil_iterations p)))
                  (INR (ceil_iterations p) * ENERGY_QUANTUM)
                  (if Rle_dec (INR (ceil_iterations p) * ENERGY_QUANTUM) 0 then 0
                   else velocity (closed_state p ENERGY_QUANTUM (ceil_iterations p))
                        / (INR (ceil_iterations p) * ENERGY_QUANTUM))
                  (abstract p))).
Proof.
  intros [Hm Hq] fuel Hfuel.
  apply (simulate_system_of_loop fuel p
           (closed_state p ENERGY_QUANTUM (ceil_iterations p))).
  now apply (loop_runs_while _ _ _ _ (while_loop_closed p Hm Hq)).
Qed.

Lemma simulate_system_no_iteration p fuel :
  energy_budget p <= 0 ->
  simulate_system fuel p = Some (Ok (mkResult (name p) 0 0 0 (abstract p))).
Proof.
  intros Hb. rewrite (simulate_system_of_loop fuel p SystemState0).
  - cbn [SystemState0 velocity energy_consumed].
    destruct (Rle_dec 0 0); [reflexivity | lra].
  - apply (loop_runs_while p 0); [constructor; cbn; lra | lia].
Qed.

Lemma simulate_all_ok_inv fuel systems :
  forall raw, simulate_all fuel systems = Some (Ok raw) ->
    Forall2 (fun system r => simulate_system fuel system = Some (Ok r))
            systems raw.
Proof.
  induction systems as [| system rest IH]; cbn [simulate_all]; intros raw.
  - intros [= <-]. constructor.
  - destruct (simulate_system fuel system) as [[r | err] |] eqn:Hr;
      cbn [run_bind]; try discriminate.
    destruct (simulate_all fuel rest) as [[rs | err] |];
      cbn [run_bind]; try discriminate.
    intros [= <-]. constructor; [exact Hr | now apply IH].
Qed.

Lemma simulate_all_total systems :
  Forall no_step_raises systems ->
  exists N, forall fuel, (N <= fuel)%nat ->
    exists raw, simulate_all fuel systems = Some (Ok raw).
Proof.
  induction 1 as [| system rest Hwf _ (N & IH)].
  - exists 0%nat. intros fuel _. now exists [].
  - exists (Nat.max (ceil_iterations system) N). intros fuel Hfuel.
    destruct (IH fuel) as [raw Hraw]; [lia |].
    cbn [simulate_all].
    rewrite (simulate_system_closed system Hwf fuel) by lia.
    cbn [run_bind]. rewrite Hraw. cbn [run_bind]. eauto.
Qed.

(** C5.  Whenever [run_experiment] returns a list, the list is sorted by
    [S] in descending order (a result that precedes another has an [S] at
    least as large), and it is a stable rearrangement of the results taken
    in the order of the input systems: the results of any one value of [S]
    come in the order their systems had in the input.  A list is returned
    for every input whose systems raise in no step, given enough fuel. *)
Theorem run_experiment_sorted_stable (systems : list SystemParameters) :
  (forall fuel results,
     run_experiment fuel systems = Some (Ok results) ->
     (forall l1 a l2 b l3,
        results = l1 ++ a :: l2 ++ b :: l3 -> res_S a >= res_S b) /\
     exists raw,
       Forall2 (fun system r => simulate_system fuel system = Some (Ok r))
               systems raw /\
       Permutation raw results /\
       forall v, filter (same_key res_S v) results
                 = filter (same_key res_S v) raw) /\
  (Forall no_step_raises systems ->
   exists N, forall fuel, (N <= fuel)%nat ->
     exists results, run_experiment fuel systems = Some (Ok results)).
Proof.
  split.
  - intros fuel results. unfold run_experiment.
    destruct (simulate_all fuel systems) as [[raw | err] |] eqn:Hraw;
      cbn [run_bind]; try discriminate.
    intros [= <-]. split.
    + intros l1 a l2 b l3 Heq.
      apply (descending_split res_S l1 a l2 b l3). rewrite <- Heq.
      apply sorted_reverse_descending.
    + exists raw. split; [now apply simulate_all_ok_inv |].
      split; [apply sorted_reverse_perm | intros v; apply sorted_reverse_stable].
  - intros Hwf. destruct (simulate_all_total systems Hwf) as (N & HN).
    exists N. intros fuel Hfuel. destruct (HN fuel Hfuel) as [raw Hraw].
    unfold run_experiment. rewrite Hraw. cbn [run_bind]. eauto.
Qed.

(** Two systems that tie at [S = 0] come out in their input order. *)
Lemma run_experiment_tie :
  run_experiment 0 [mkParams "first" 1 0.5 0 false; mkParams "second" 2 0.5 (-1) true]
  = Some (Ok [mkResult "first" 0 0 0 false; mkResult "second" 0 0 0 true]).
Proof.
  unfold run_experiment. cbn [simulate_all].
  rewrite !simulate_system_no_iteration by (cbn [energy_budget]; lra).
  cbn [run_bind name abstract sorted_reverse fold_right].
  cbn [insert_reverse res_S].
  destruct (Rlt_dec 0 0); [lra | reflexivity].
Qed.

Lemma run_experiment_sorted_stable_witness :
  (forall l1 a l2 b l3,
     [mkResult "first" 0 0 0 false; mkResult "second" 0 0 0 true]
       = l1 ++ a :: l2 ++ b :: l3 -> res_S a >= res_S b) /\
  exists raw,
    Forall2 (fun system r => simulate_system 0 system = Some (Ok r))
      [mkParams "first" 1 0.5 0 false; mkParams "second" 2 0.5 (-1) true] raw /\
    Permutation raw [mkResult "first" 0 0 0 false; mkResult "second" 0 0 0 true] /\
    forall v,
      filter (same_key res_S v)
             [mkResult "first" 0 0 0 false; mkResult "second" 0 0 0 true]
      = filter (same_key res_S v) raw.
Proof.
  apply (proj1 (run_experiment_sorted_stable
                  [mkParams "first" 1 0.5 0 false;
                   mkParams "second" 2 0.5 (-1) true]) 0%nat).
  exact run_experiment_tie.
Defined.

(* ================================================================== *)
(** ** The benchmark catalog *)

Lemma sqrt_bracket (a b x : R) :
  0 <= a -> a * a <= x -> x < b * b -> 0 <= b -> a <= sqrt x < b.
Proof.
  intros Ha Hlo Hhi Hb. split.
  - rewrite <- (sqrt_square a Ha). now apply sqrt_le_1_alt.
  - rewrite <- (sqrt_square b Hb). apply sqrt_lt_1_alt. nra.
Qed.

Lemma ceil_iterations_eq p (k : nat) :
  IZR (Z.of_nat k) - 1 < energy_budget p / ENERGY_QUANTUM <= IZR (Z.of_nat k) ->
  ceil_iterations p = k.
Proof.
  intros H. unfold ceil_iterations. rewrite (Zceil_eq _ _ H). apply Nat2Z.id.
Qed.

(** The record reported for a system that takes [k >= 1] iterations. *)
Lemma simulate_system_after p (k : nat) (rad e : R) :
  no_step_raises p ->
  ceil_iterations p = k ->
  IZR (Z.of_nat k) * (2 * (efficiency p * ENERGY_QUANTUM) / mass p) = rad ->
  IZR (Z.of_nat k) * ENERGY_QUANTUM = e ->
  0 < e ->
  loop_runs p k SystemState0 (mkState (sqrt rad) e) /\
  forall fuel, (k <= fuel)%nat ->
    simulate_system fuel p =
      Some (Ok (mkResult (name p) (sqrt rad) e (sqrt rad / e) (abstract p))).
Proof.
  intros [Hm Hq] HK Hrad He Hpos.
  pose proof (while_loop_closed p Hm Hq) as Hruns.
  unfold closed_state in Hruns.
  rewrite HK, INR_IZR_INZ, Hrad, He in Hruns.
  split; [exact Hruns |]. intros fuel Hfuel.
  rewrite (simulate_system_of_loop fuel p (mkState (sqrt rad) e)).
  - cbn [velocity energy_consumed].
    destruct (Rle_dec e 0); [lra | reflexivity].
  - now apply (loop_runs_while _ _ _ _ Hruns).
Qed.

Ltac benchmark_entry p k rad e :=
  apply (simulate_system_after p k rad e);
  [ unfold no_step_raises, p; cbn [mass efficiency]; split; lra
  | apply ceil_iterations_eq; unfold p, ENERGY_QUANTUM;
    cbn [energy_budget Z.of_nat Pos.of_succ_nat Pos.succ]; lra
  | unfold p, ENERGY_QUANTUM;
    cbn [mass efficiency Z.of_nat Pos.of_succ_nat Pos.succ]; lra
  | unfold ENERGY_QUANTUM; cbn [Z.of_nat Pos.of_succ_nat Pos.succ]; lra
  | lra ].

Lemma agile_robot_run :
  loop_runs agile_robot 12 SystemState0 (mkState (sqrt 168) 60) /\
  forall fuel, (12 <= fuel)%nat ->
    simulate_system fuel agile_robot =
      Some (Ok (mkResult "Agile Robot" (sqrt 168) 60 (sqrt 168 / 60) false)).
Proof. benchmark_entry agile_robot 12%nat 168 60. Qed.

Lemma electric_vehicle_run :
  loop_runs electric_vehicle 20 SystemState0 (mkState (sqrt 160) 100) /\
  forall fuel, (20 <= fuel)%nat ->
    simulate_system fuel electric_vehicle =
      Some (Ok (mkResult "Electric Vehicle" (sqrt 160) 100 (sqrt 160 / 100) false)).
Proof. benchmark_entry electric_vehicle 20%nat 160 100. Qed.

Lemma ai_agent_run :
  loop_runs ai_agent 10 SystemState0 (mkState (sqrt 50) 50) /\
  forall fuel, (10 <= fuel)%nat ->
    simulate_system fuel ai_agent =
      Some (Ok (mkResult "AI Agent (Abstract)" (sqrt 50) 50 (sqrt 50 / 50) true)).
Proof. benchmark_entry ai_agent 10%nat 50 50. Qed.

Lemma benchmark_S_order :
  sqrt 160 / 100 < sqrt 50 / 50 /\ sqrt 50 / 50 < sqrt 168 / 60.
Proof.
  pose proof (sqrt_bracket 12.6 12.7 160) as H160.
  pose proof (sqrt_bracket 7 7.1 50) as H50.
  pose proof (sqrt_bracket 12.9 13 168) as H168.
  lra.
Qed.

(** C7.  The benchmark scenario.  "Agile Robot" (mass 0.5, efficiency
    0.70, budget 60.0, quantum 5.0) takes exactly 12 steps and ends with
    [energy_consumed] exactly 60, final velocity [sqrt 168], which is
    12.961481 to six decimals, and [S = sqrt 168 / 60], which is 0.216025 to
    six decimals.  [run_experiment] on the catalog returns Agile Robot,
    then AI Agent (Abstract), then Electric Vehicle, by strictly decreasing
    [S]. *)
Theorem benchmark_suite_scenario :
  loop_runs agile_robot 12 SystemState0 (mkState (sqrt 168) 60) /\
  (forall n s', loop_runs agile_robot n SystemState0 s' -> n = 12%nat) /\
  (forall extra,
     simulate_system (12 + extra) agile_robot =
       Some (Ok (mkResult "Agile Robot" (sqrt 168) 60 (sqrt 168 / 60) false))) /\
  12.9614805 <= sqrt 168 < 12.9614815 /\
  0.2160245 <= sqrt 168 / 60 < 0.2160255 /\
  (forall extra,
     run_experiment (20 + extra) benchmark_suite =
       Some (Ok [mkResult "Agile Robot" (sqrt 168) 60 (sqrt 168 / 60) false;
                 mkResult "AI Agent (Abstract)" (sqrt 50) 50 (sqrt 50 / 50) true;
                 mkResult "Electric Vehicle" (sqrt 160) 100 (sqrt 160 / 100) false])) /\
  sqrt 160 / 100 < sqrt 50 / 50 < sqrt 168 / 60.
Proof.
  destruct agile_robot_run as [Hruns Hagile].
  destruct electric_vehicle_run as [_ Hev].
  destruct ai_agent_run as [_ Hai].
  destruct benchmark_S_order as [Hlow Hhigh].
  assert (Hv : 12.9614805 <= sqrt 168 < 12.9614815).
  { apply sqrt_bracket; lra. }
  split; [exact Hruns |].
  split.
  { intros n s' Hn. now destruct (loop_runs_deterministic _ _ _ _ Hn _ _ Hruns). }
  split; [intros extra; apply Hagile; lia |].
  split; [exact Hv |].
  split; [lra |].
  split; [| lra].
  intros extra. unfold run_experiment, benchmark_suite. cbn [simulate_all].
  rewrite Hagile, Hev, Hai by lia.
  cbn [run_bind sorted_reverse fold_right].
  rewrite insert_reverse_nil.
  rewrite insert_reverse_lt by (cbn [res_S]; lra).
  rewrite insert_reverse_nil.
  rewrite insert_reverse_ge by (cbn [res_S]; lra).
  reflexivity.
Qed.

(* ================================================================== *)
(** ** Further properties of the experiment runner *)

Lemma simulate_all_first_error fuel good bad rest err :
  Forall (fun system => exists r, simulate_system fuel system = Some (Ok r)) good ->
  simulate_system fuel bad = Some (Raise err) ->
  simulate_all fuel (good ++ bad :: rest) = Some (Raise err).
Proof.
  intros Hgood Hbad.
  induction Hgood as [| g good [r Hr] _ IH]; cbn [app simulate_all].
  - now rewrite Hbad.
  - rewrite Hr. cbn [run_bind]. now rewrite IH.
Qed.

(** X11.  [run_experiment] stops at the first system whose simulation
    raises: when the systems in front of it all return, the experiment
    raises that system's exception and returns no list, whatever systems
    come after it. *)
Theorem run_experiment_first_error (fuel : nat)
    (good : list SystemParameters) (bad : SystemParameters)
    (rest : list SystemParameters) (err : PyError) :
  Forall (fun system => exists r, simulate_system fuel system = Some (Ok r)) good ->
  simulate_system fuel bad = Some (Raise err) ->
  run_experiment fuel (good ++ bad :: rest) = Some (Raise err).
Proof.
  intros Hgood Hbad. unfold run_experiment.
  now rewrite (simulate_all_first_error _ _ _ _ _ Hgood Hbad).
Qed.

Lemma massless_raises :
  simulate_system 12 (mkParams "massless" 0 0.70 60 false)
    = Some (Raise ZeroDivisionError).
Proof.
  unfold simulate_system.
  rewrite (proj1 (while_loop_first_step_raises
                    (mkParams "massless" 0 0.70 60 false) 11
                    ltac:(cbn [energy_budget]; lra)));
    reflexivity.
Qed.

Lemma run_experiment_first_error_witness :
  run_experiment 12
    ([agile_robot] ++ mkParams "massless" 0 0.70 60 false :: [electric_vehicle])
    = Some (Raise ZeroDivisionError).
Proof.
  apply (run_experiment_first_error 12 [agile_robot]).
  - constructor; [| constructor]. eexists. apply agile_robot_run. lia.
  - exact massless_raises.
Defined.

Lemma simulate_all_labels fuel systems raw :
  Forall2 (fun system r => simulate_system fuel system = Some (Ok r)) systems raw ->
  map (fun r => (res_system r, res_abstract r)) raw
    = map (fun system => (name system, abstract system)) systems.
Proof.
  induction 1 as [| system r systems raw Hr _ IH]; cbn [map]; [reflexivity |].
  destruct (simulate_system_ok_inv _ _ _ Hr) as (_ & _ & -> & _ & _ & _ & ->).
  now rewrite IH.
Qed.

(** X12.  [run_experiment] neither drops nor invents systems: the list it
    returns has one record per input system, and the (name, abstract flag)
    pairs of the records are a rearrangement of those of the input. *)
Theorem run_experiment_keeps_systems (fuel : nat)
    (systems : list SystemParameters) (results : list ResultRecord) :
  run_experiment fuel systems = Some (Ok results) ->
  List.length results = List.length systems /\
  Permutation (map (fun r => (res_system r, res_abstract r)) results)
              (map (fun system => (name system, abstract system)) systems).
Proof.
  unfold run_experiment.
  destruct (simulate_all fuel systems) as [[raw | err] |] eqn:Hraw;
    cbn [run_bind]; try discriminate.
  intros [= <-].
  pose proof (simulate_all_labels _ _ _ (simulate_all_ok_inv _ _ _ Hraw)) as Hlab.
  assert (Hperm : Permutation
            (map (fun r => (res_system r, res_abstract r))
                 (sorted_reverse res_S raw))
            (map (fun system => (name system, abstract system)) systems)).
  { rewrite <- Hlab. apply Permutation_map. symmetry. apply sorted_reverse_perm. }
  split; [| exact Hperm].
  apply Permutation_length in Hperm. now rewrite !length_map in Hperm.
Qed.

Lemma run_experiment_keeps_systems_witness :
  List.length [mkResult "first" 0 0 0 false; mkResult "second" 0 0 0 true]
    = List.length [mkParams "first" 1 0.5 0 false; mkParams "second" 2 0.5 (-1) true] /\
  Permutation
    (map (fun r => (res_system r, res_abstract r))
         [mkResult "first" 0 0 0 false; mkResult "second" 0 0 0 true])
    (map (fun system => (name system, abstract system))
         [mkParams "first" 1 0.5 0 false; mkParams "second" 2 0.5 (-1) true]).
Proof.
  apply (run_experiment_keeps_systems 0). exact run_experiment_tie.
Defined.

(* ================================================================== *)
(** ** Binary64: the shape of results

    The specification of the primitive operations ([FloatAxioms]) gives
    every float a [spec_float]: a signed zero, a signed infinity, nan, or a
    finite number with a sign.  The facts below only look at that shape. *)

Section Binary64Shapes.

Local Open Scope float_scope.

Lemma b64_sf_zero : Prim2SF 0 = S754_zero false.
Proof. reflexivity. Qed.


Lemma b64_compare_refl (x : spec_float) :
  x <> S754_nan -> SFcompare x x = Some Eq.
Proof.
  destruct x as [s | s | | s m e]; cbn [SFcompare]; intros H;
    try reflexivity; try (now destruct s); try (now elim H).
  rewrite Z.compare_refl, Pos.compare_cont_refl. now destruct s.
Qed.

Lemma b64_is_nan_sf (x : float) :
  is_nan x = true <-> Prim2SF x = S754_nan.
Proof.
  unfold is_nan. rewrite FloatAxioms.eqb_spec. unfold SFeqb. split.
  - intros H. destruct (Prim2SF x) as [s | s | | s m e] eqn:Hx; try reflexivity;
      rewrite b64_compare_refl in H by discriminate; discriminate.
  - intros ->. reflexivity.
Qed.

Lemma b64_not_nan_sf (x : float) :
  is_nan x = false <-> Prim2SF x <> S754_nan.
Proof.
  split.
  - intros H Hn. apply b64_is_nan_sf in Hn. congruence.
  - intros H. destruct (is_nan x) eqn:E; [| reflexivity].
    apply b64_is_nan_sf in E. contradiction.
Qed.



Lemma b64_ltb_zero_sf (x : float) :
  (x <? 0) = false <-> sf_not_negative (Prim2SF x).
Proof.
  rewrite FloatAxioms.ltb_spec, b64_sf_zero.
  destruct (Prim2SF x) as [s | s | | s m e]; cbn; try destruct s; cbn;
    split; try tauto; try discriminate; reflexivity.
Qed.

Lemma b64_zero_ltb_sf (x : float) :
  (0 <? x) = true <->
  Prim2SF x = S754_infinity false \/ exists m e, Prim2SF x = S754_finite false m e.
Proof.
  rewrite FloatAxioms.ltb_spec, b64_sf_zero.
  destruct (Prim2SF x) as [s | s | | s m e]; cbn; try destruct s; cbn; split;
    try discriminate; eauto;
    try (intros [H | (m' & e' & H)]; discriminate).
Qed.

Lemma b64_leb_zero_false_sf (x : float) :
  (x <=? 0) = false <->
  Prim2SF x = S754_nan \/ Prim2SF x = S754_infinity false \/
  exists m e, Prim2SF x = S754_finite false m e.
Proof.
  rewrite FloatAxioms.leb_spec, b64_sf_zero.
  destruct (Prim2SF x) as [s | s | | s m e]; cbn; try destruct s; cbn; split;
    try discriminate; eauto 6;
    try (intros [H | [H | (m' & e' & H)]]; discriminate).
Qed.

End Binary64Shapes.

(* ================================================================== *)
(** ** Binary64: rounding keeps the sign *)

Section Binary64Rounding.

Variable prec emax : Z.

Lemma shr_1_nonneg mrs : (0 <= shr_m mrs)%Z -> (0 <= shr_m (shr_1 mrs))%Z.
Proof.
  destruct mrs as [m r s]. destruct m as [| q | q]; cbn; intros H;
    try lia; destruct q; cbn; lia.
Qed.

Lemma iter_shr_1_nonneg (n : positive) :
  forall mrs, (0 <= shr_m mrs)%Z -> (0 <= shr_m (SpecFloat.iter_pos shr_1 n mrs))%Z.
Proof.
  induction n as [n IH | n IH |]; intros mrs H; cbn [SpecFloat.iter_pos].
  - apply IH, IH. now apply shr_1_nonneg.
  - now apply IH, IH.
  - now apply shr_1_nonneg.
Qed.

Lemma shr_fexp_nonneg m e l :
  (0 <= m)%Z -> (0 <= shr_m (fst (shr_fexp prec emax m e l)))%Z.
Proof.
  intros H. unfold shr_fexp, shr.
  assert (H0 : (0 <= shr_m (shr_record_of_loc m l))%Z).
  { destruct l as [| []]; exact H. }
  destruct (_ - e)%Z; cbn [fst]; try exact H0.
  now apply iter_shr_1_nonneg.
Qed.

Lemma round_nearest_even_nonneg m l :
  (0 <= m)%Z -> (0 <= round_nearest_even m l)%Z.
Proof.
  intros H. destruct l as [| []]; cbn; try destruct (Z.even m); lia.
Qed.

(** Rounding a non-negative mantissa gives a zero, a finite number or an
    infinity of the requested sign, never nan. *)
Lemma binary_round_aux_sign s m e l :
  (0 <= m)%Z -> sf_has_sign s (binary_round_aux prec emax s m e l).
Proof.
  intros H. unfold binary_round_aux.
  pose proof (shr_fexp_nonneg m e l H) as H1.
  destruct (shr_fexp prec emax m e l) as [mrs1 e1]. cbn [fst] in H1.
  pose proof (shr_fexp_nonneg _ e1 loc_Exact
                (round_nearest_even_nonneg _ (loc_of_shr_record mrs1) H1)) as H2.
  destruct (shr_fexp prec emax _ e1 loc_Exact) as [mrs2 e2]. cbn [fst] in H2.
  destruct (shr_m mrs2); [reflexivity | | lia].
  destruct (_ <=? _)%Z; reflexivity.
Qed.

Lemma binary_round_sign s m e :
  sf_has_sign s (binary_round prec emax s m e).
Proof.
  unfold binary_round. destruct (shl_align _ _ _) as [mz ez].
  apply binary_round_aux_sign. lia.
Qed.

End Binary64Rounding.

(* ================================================================== *)
(** ** Binary64: zeros, squares and the partial operations *)

Section Binary64Operations.

Local Open Scope float_scope.









Lemma b64_apply_energy_step_in_budget s p e :
  (B64.energy_budget p <=? B64.energy_consumed s) = false ->
  (B64.mass p =? 0) = false ->
  B64.apply_energy_step s p e =
    B64.bind (B64.py_pow2 (B64.velocity s)) (fun v_squared =>
    B64.bind (B64.py_sqrt
                (v_squared + 2 * (B64.efficiency p * e) / B64.mass p))
             (fun v =>
    B64.Ok (B64.mkState v (B64.energy_consumed s + e)))).
Proof.
  intros Hguard Hmass. unfold B64.apply_energy_step, B64.py_div.
  now rewrite Hguard, Hmass.
Qed.

End Binary64Operations.

(* ================================================================== *)
(** ** The state stepper in binary64 *)

Section Binary64Stepper.

Local Open Scope float_scope.
#[local] Set Warnings "-inexact-float".







End Binary64Stepper.

(* ================================================================== *)
(** ** The driver in binary64 *)

Section Binary64Driver.

Local Open Scope float_scope.
#[local] Set Warnings "-inexact-float".

(** The benchmark entries as the program computes them. *)
Lemma b64_benchmark_runs :
  B64.simulate_system 12 (B64.mkParams "Agile Robot" 0.5 0.70 60.0 false)
  = Some (B64.Ok (B64.mkResult "Agile Robot" 12.961481396815721 60
                    0.21602468994692867 false)) /\
  B64.simulate_system 20 (B64.mkParams "Electric Vehicle" 1.0 0.80 100.0 false)
  = Some (B64.Ok (B64.mkResult "Electric Vehicle" 12.649110640673516 100
                    0.12649110640673517 false)) /\
  B64.simulate_system 10 (B64.mkParams "AI Agent (Abstract)" 1.0 0.50 50.0 true)
  = Some (B64.Ok (B64.mkResult "AI Agent (Abstract)" 7.0710678118654755 50
                    0.1414213562373095 true)).
Proof. repeat split; vm_compute; reflexivity. Qed.

Lemma binary_round_aux_not_negative (m e : Z) (l : location) :
  sf_not_negative (binary_round_aux prec emax false m e l).
Proof.
  unfold binary_round_aux.
  destruct (shr_fexp prec emax m e l) as [mrs1 e1].
  destruct (shr_fexp prec emax _ e1 loc_Exact) as [mrs2 e2].
  destruct (shr_m mrs2); cbn; try exact I.
  destruct (_ <=? _)%Z; exact I.
Qed.

Lemma b64_sqrt_not_negative (x : float) :
  sf_not_negative (Prim2SF (PrimFloat.sqrt x)).
Proof.
  rewrite sqrt_spec. unfold SF64sqrt, SFsqrt.
  destruct (Prim2SF x) as [s | s | | s m e]; try destruct s; cbn; try exact I.
  destruct (SFsqrt_core_binary prec emax (Zpos m) e) as [[mz ez] lz].
  apply binary_round_aux_not_negative.
Qed.

Lemma b64_div_not_negative (v e : float) :
  sf_not_negative (Prim2SF v) -> (e <=? 0) = false ->
  sf_not_negative (Prim2SF (v / e)).
Proof.
  intros Hv He. rewrite div_spec. unfold SF64div.
  apply b64_leb_zero_false_sf in He as [-> | [-> | (q & k & ->)]];
    destruct (Prim2SF v) as [s | s | | s m ex]; try destruct s; cbn in *;
    try exact I; try contradiction.
  destruct (SFdiv_core_binary prec emax (Zpos m) ex (Zpos q) k) as [[mz ez] lz].
  apply binary_round_aux_not_negative.
Qed.

Lemma b64_five_sf :
  exists m e, Prim2SF B64.ENERGY_QUANTUM = S754_finite false m e.
Proof. vm_compute. eauto. Qed.

Lemma b64_add_quantum_not_negative (x : float) :
  sf_not_negative (Prim2SF x) ->
  sf_not_negative (Prim2SF (x + B64.ENERGY_QUANTUM)).
Proof.
  intros Hx. rewrite add_spec. destruct b64_five_sf as (m5 & e5 & ->).
  unfold SF64add, SFadd.
  destruct (Prim2SF x) as [s | s | | s m e]; try destruct s; cbn in *;
    try exact I; try contradiction.
  destruct (shl_align m e (Z.min e e5)) as [m1 e1].
  destruct (shl_align m5 e5 (Z.min e e5)) as [m2 e2]. cbn [fst].
  pose proof (binary_round_sign prec emax false (m1 + m2) (Z.min e e5)) as H.
  destruct (binary_round prec emax false (m1 + m2) (Z.min e e5)); cbn in *;
    subst; exact I.
Qed.

Lemma b64_add_quantum_not_nan (x : float) :
  is_nan x = false -> is_nan (x + B64.ENERGY_QUANTUM) = false.
Proof.
  intros Hx. apply b64_not_nan_sf in Hx. apply b64_not_nan_sf.
  rewrite add_spec. destruct b64_five_sf as (m5 & e5 & ->).
  unfold SF64add, SFadd.
  destruct (Prim2SF x) as [s | s | | s m e]; try discriminate; [now elim Hx |].
  destruct (shl_align m e (Z.min e e5)) as [m1 e1].
  destruct (shl_align m5 e5 (Z.min e e5)) as [m2 e2]. cbn [fst].
  unfold binary_normalize.
  destruct (cond_Zopp s (Zpos m1) + cond_Zopp false (Zpos m2))%Z as [| q | q];
    try discriminate;
    [ pose proof (binary_round_sign prec emax false q (Z.min e e5)) as H
    | pose proof (binary_round_sign prec emax true q (Z.min e e5)) as H ];
    intros Heq; rewrite Heq in H; exact H.
Qed.

(** What one call of the stepper keeps. *)
Lemma b64_step_keeps s p s' :
  B64.apply_energy_step s p B64.ENERGY_QUANTUM = B64.Ok s' ->
  (sf_not_negative (Prim2SF (B64.velocity s)) ->
   sf_not_negative (Prim2SF (B64.velocity s'))) /\
  (sf_not_negative (Prim2SF (B64.energy_consumed s)) ->
   sf_not_negative (Prim2SF (B64.energy_consumed s'))) /\
  (is_nan (B64.energy_consumed s) = false ->
   is_nan (B64.energy_consumed s') = false).
Proof.
  unfold B64.apply_energy_step.
  destruct (_ <=? _); [intros [= <-]; tauto |].
  destruct (B64.py_div _ _) as [delta | err]; cbn [B64.bind]; [| discriminate].
  destruct (B64.py_pow2 _) as [v2 | err]; cbn [B64.bind]; [| discriminate].
  unfold B64.py_sqrt. destruct (andb _ _); cbn [B64.bind]; [discriminate |].
  intros [= <-]. cbn [B64.velocity B64.energy_consumed]. repeat split.
  - intros _. apply b64_sqrt_not_negative.
  - apply b64_add_quantum_not_negative.
  - apply b64_add_quantum_not_nan.
Qed.

Lemma b64_while_loop_keeps (P : B64.SystemState -> Prop) p :
  (forall s s', B64.apply_energy_step s p B64.ENERGY_QUANTUM = B64.Ok s' ->
                P s -> P s') ->
  forall fuel s s',
    P s -> B64.while_loop fuel p s = Some (B64.Ok s') ->
    P s' /\ (B64.energy_consumed s' <? B64.energy_budget p) = false.
Proof.
  intros Hstep. induction fuel as [| fuel IH]; intros s s' Hs;
    cbn [B64.while_loop];
    destruct (B64.energy_consumed s <? B64.energy_budget p) eqn:Hguard;
    try discriminate; try (intros [= <-]; now split).
  destruct (B64.apply_energy_step s p B64.ENERGY_QUANTUM) as [s1 | err] eqn:H1;
    [| discriminate].
  apply IH. now apply (Hstep s s1).
Qed.

(** X1.  Whatever the parameters, nan included, no record returned by
    [simulate_system] has a negative number in it: [final_velocity < 0],
    [energy_consumed < 0] and [S < 0] are all false. *)
Theorem b64_simulate_system_not_negative (fuel : nat)
    (p : B64.SystemParameters) (r : B64.ResultRecord) :
  B64.simulate_system fuel p = Some (B64.Ok r) ->
  (B64.res_final_velocity r <? 0) = false /\
  (B64.res_energy_consumed r <? 0) = false /\
  (B64.res_S r <? 0) = false.
Proof.
  unfold B64.simulate_system.
  destruct (B64.while_loop fuel p B64.SystemState0) as [[s | err] |] eqn:Hloop;
    try discriminate.
  destruct (b64_while_loop_keeps
              (fun s => sf_not_negative (Prim2SF (B64.velocity s)) /\
                        sf_not_negative (Prim2SF (B64.energy_consumed s)))
              p) with (fuel := fuel) (s := B64.SystemState0) (s' := s)
    as [[Hv He] _].
  - intros s0 s1 H [H0 H1]. destruct (b64_step_keeps _ _ _ H) as (Ha & Hb & _).
    split; auto.
  - split; exact I.
  - exact Hloop.
  - unfold B64.kinetic_conversion_efficiency.
    destruct (B64.energy_consumed s <=? 0) eqn:Hzero; cbn [B64.bind].
    + intros [= <-]. cbn. repeat split; try now apply b64_ltb_zero_sf.
    + unfold B64.py_div. destruct (B64.energy_consumed s =? 0); cbn [B64.bind];
        [discriminate |].
      intros [= <-]. cbn. repeat split; apply b64_ltb_zero_sf; auto.
      now apply b64_div_not_negative.
Qed.

Lemma b64_simulate_system_not_negative_witness :
  (12.961481396815721 <? 0) = false /\ (60 <? 0) = false /\
  (0.21602468994692867 <? 0) = false.
Proof.
  apply (b64_simulate_system_not_negative 12
           (B64.mkParams "Agile Robot" 0.5 0.70 60.0 false)
           (B64.mkResult "Agile Robot" 12.961481396815721 60
              0.21602468994692867 false)).
  apply b64_benchmark_runs.
Defined.

End Binary64Driver.

(* ================================================================== *)
(** ** Errors, order of quanta and exhaustion in binary64 *)

Section Binary64Edges.

Local Open Scope float_scope.
#[local] Set Warnings "-inexact-float".

Lemma b64_pos_not_leb (b : float) : (0 <? b) = true -> (b <=? 0) = false.
Proof.
  intros Hb. rewrite FloatAxioms.leb_spec, b64_sf_zero.
  apply b64_zero_ltb_sf in Hb as [-> | (m & e & ->)]; reflexivity.
Qed.

Lemma b64_negative_sf (x : float) :
  (x <? 0) = true ->
  Prim2SF x = S754_infinity true \/ exists m e, Prim2SF x = S754_finite true m e.
Proof.
  rewrite FloatAxioms.ltb_spec, b64_sf_zero.
  destruct (Prim2SF x) as [s | s | | s m e]; try destruct s; cbn;
    try discriminate; eauto.
Qed.

Lemma b64_sqrt_negative (x : float) :
  (x <? 0) = true ->
  is_nan (PrimFloat.sqrt (0 + x)) = true /\ is_nan (0 + x) = false.
Proof.
  intros Hx.
  assert (Hsum : Prim2SF (0 + x) = Prim2SF x).
  { rewrite add_spec, b64_sf_zero.
    apply b64_negative_sf in Hx as [-> | (m & e & ->)]; reflexivity. }
  split.
  - apply b64_is_nan_sf. rewrite sqrt_spec, Hsum.
    apply b64_negative_sf in Hx as [-> | (m & e & ->)]; reflexivity.
  - apply b64_not_nan_sf. rewrite Hsum.
    apply b64_negative_sf in Hx as [-> | (m & e & ->)]; discriminate.
Qed.

(** X3.  Errors of the first iteration.  On a positive budget, with fuel
    for at least one iteration, [simulate_system] raises
    [ZeroDivisionError] when [mass == 0.0], and raises [ValueError] when the
    mass is not zero and the computed
    [(2.0 * (efficiency * 5.0)) / mass] is below zero. *)
Theorem b64_simulate_system_first_step_errors (fuel : nat)
    (p : B64.SystemParameters) :
  (0 <? B64.energy_budget p) = true ->
  ((B64.mass p =? 0) = true ->
   B64.simulate_system (S fuel) p = Some (B64.Raise B64.ZeroDivisionError)) /\
  ((B64.mass p =? 0) = false ->
   (2 * (B64.efficiency p * 5) / B64.mass p <? 0) = true ->
   B64.simulate_system (S fuel) p = Some (B64.Raise B64.ValueError)).
Proof.
  intros Hb. pose proof (b64_pos_not_leb _ Hb) as Hguard.
  unfold B64.simulate_system. cbn [B64.while_loop].
  change (B64.energy_consumed B64.SystemState0) with 0%float.
  rewrite Hb. split.
  - intros Hm. unfold B64.apply_energy_step, B64.py_div.
    change (B64.energy_consumed B64.SystemState0) with 0%float.
    now rewrite Hguard, Hm.
  - intros Hm Hneg.
    rewrite (b64_apply_energy_step_in_budget B64.SystemState0 p _ Hguard Hm).
    change (B64.py_pow2 (B64.velocity B64.SystemState0)) with (B64.Ok 0%float).
    cbn [B64.bind]. unfold B64.py_sqrt.
    change B64.ENERGY_QUANTUM with 5%float.
    destruct (b64_sqrt_negative _ Hneg) as [-> ->]. reflexivity.
Qed.

Lemma b64_simulate_system_first_step_errors_witness :
  B64.simulate_system 1 (B64.mkParams "backwards" (-1) 0.5 3 false)
  = Some (B64.Raise B64.ValueError).
Proof.
  apply (b64_simulate_system_first_step_errors 0
           (B64.mkParams "backwards" (-1) 0.5 3 false));
    reflexivity.
Defined.

(** X4.  The outcome depends on the order of the quanta.  With mass 1,
    efficiency 1 and budget 10, the steps 2.0 then 6.0 from the fresh state
    end with velocity 4.0; the steps 6.0 then 2.0 end with velocity
    3.9999999999999996.  [energy_consumed] is 8.0 both times. *)
Theorem b64_apply_steps_order_matters :
  B64.apply_steps [2; 6] (B64.mkParams "unit" 1 1 10 false) B64.SystemState0
  = B64.Ok (B64.mkState 4 8) /\
  B64.apply_steps [6; 2] (B64.mkParams "unit" 1 1 10 false) B64.SystemState0
  = B64.Ok (B64.mkState 3.9999999999999996 8) /\
  (3.9999999999999996 <? 4) = true.
Proof. repeat split; vm_compute; reflexivity. Qed.

Lemma sf_compare_antisym (x y : spec_float) :
  SFcompare y x = option_map CompOpp (SFcompare x y).
Proof.
  destruct x as [sx | sx | | sx mx ex], y as [sy | sy | | sy my ey];
    cbn [SFcompare option_map]; try destruct sx; try destruct sy;
    try reflexivity;
    rewrite (Z.compare_antisym ex ey);
    destruct (ex ?= ey)%Z; cbn [CompOpp]; try reflexivity;
    repeat f_equal; symmetry; exact (Pos.compare_cont_antisym mx my Eq).
Qed.

(** For two numbers, "not [a < b]" is [b <= a]. *)
Lemma b64_not_ltb_leb (a b : float) :
  is_nan a = false -> is_nan b = false ->
  (a <? b) = false -> (b <=? a) = true.
Proof.
  intros Ha Hb. rewrite FloatAxioms.ltb_spec, FloatAxioms.leb_spec.
  unfold SFltb, SFleb. rewrite (sf_compare_antisym (Prim2SF a) (Prim2SF b)).
  apply b64_not_nan_sf in Ha. apply b64_not_nan_sf in Hb.
  destruct (Prim2SF a) as [sa | sa | | sa ma ea];
    destruct (Prim2SF b) as [sb | sb | | sb mb eb];
    try (now elim Ha); try (now elim Hb);
    destruct (SFcompare _ _) as [[] |] eqn:Hc; cbn; try reflexivity;
    try discriminate; cbn in Hc; try destruct sa; try destruct sb;
    discriminate.
Qed.

(** X5.  When the budget is a number (not nan) and the driver's loop,
    entered in the fresh state, has been left, the stepper no longer changes
    the final state: any further calls, with any step sizes, return it as it
    is and do not raise. *)
Theorem b64_apply_steps_after_loop (fuel : nat) (p : B64.SystemParameters)
    (s' : B64.SystemState) (steps : list float) :
  is_nan (B64.energy_budget p) = false ->
  B64.while_loop fuel p B64.SystemState0 = Some (B64.Ok s') ->
  B64.apply_steps steps p s' = B64.Ok s'.
Proof.
  intros Hb Hloop.
  destruct (b64_while_loop_keeps
              (fun s => is_nan (B64.energy_consumed s) = false) p)
    with (fuel := fuel) (s := B64.SystemState0) (s' := s')
    as [He Hexit].
  - intros s0 s1 H. apply (b64_step_keeps _ _ _ H).
  - reflexivity.
  - exact Hloop.
  - pose proof (b64_not_ltb_leb _ _ He Hb Hexit) as Hguard.
    induction steps as [| e rest IH]; cbn [B64.apply_steps]; [reflexivity |].
    unfold B64.apply_energy_step at 1. rewrite Hguard. exact IH.
Qed.

Lemma b64_apply_steps_after_loop_witness :
  B64.apply_steps [5; 7] (B64.mkParams "Agile Robot" 0.5 0.70 60.0 false)
    (B64.mkState 12.961481396815721 60)
  = B64.Ok (B64.mkState 12.961481396815721 60).
Proof.
  apply (b64_apply_steps_after_loop 12); reflexivity.
Defined.

End Binary64Edges.

(* ================================================================== *)
(** ** Binary64: integers below [2^53] are added and compared exactly *)

Section Binary64Integers.

Local Open Scope Z_scope.

Lemma digits_iter q p :
  Zpos (digits2_pos (Pos.iter xO q p)) = Zpos (digits2_pos q) + Zpos p.
Proof.
  induction p as [| p IH] using Pos.peano_ind.
  - cbn. lia.
  - rewrite Pos.iter_succ. cbn [digits2_pos]. lia.
Qed.

Lemma digits_shl q n :
  0 <= n -> Zpos (digits2_pos (shl_pos q n)) = Zpos (digits2_pos q) + n.
Proof.
  intros Hn. destruct n as [| p | p]; cbn [shl_pos]; [lia | apply digits_iter | lia].
Qed.

Lemma shl_shl q a b : 0 <= a -> 0 <= b -> shl_pos (shl_pos q a) b = shl_pos q (a + b).
Proof.
  intros Ha Hb. destruct a as [| pa | pa], b as [| pb | pb]; try lia; cbn; try reflexivity.
  now rewrite (Pos.add_comm pa pb), Pos.iter_add.
Qed.

Lemma shl_add a b n : (shl_pos a n + shl_pos b n)%positive = shl_pos (a + b) n.
Proof.
  destruct n as [| p | p]; cbn [shl_pos]; try reflexivity.
  induction p as [| p IH] using Pos.peano_ind.
  - reflexivity.
  - rewrite !Pos.iter_succ, <- IH. reflexivity.
Qed.

Lemma shl_compare a b n : (shl_pos a n ?= shl_pos b n)%positive = (a ?= b)%positive.
Proof.
  destruct n as [| p | p]; cbn [shl_pos]; try reflexivity.
  induction p as [| p IH] using Pos.peano_ind.
  - reflexivity.
  - rewrite !Pos.iter_succ. exact IH.
Qed.

Lemma iter_pos_eq {A : Type} (f : A -> A) p :
  forall x, SpecFloat.iter_pos f p x = Pos.iter f x p.
Proof.
  induction p as [p IH | p IH |]; intros x; cbn [SpecFloat.iter_pos Pos.iter].
  - rewrite !IH, !Pos.iter_swap. reflexivity.
  - now rewrite !IH.
  - reflexivity.
Qed.

Lemma shr_iter q p :
  Pos.iter shr_1 (Build_shr_record (Zpos (Pos.iter xO q p)) false false) p
  = Build_shr_record (Zpos q) false false.
Proof.
  induction p as [| p IH] using Pos.peano_ind.
  - reflexivity.
  - rewrite (Pos.iter_succ p positive xO q).
    rewrite (Pos.iter_succ_r p shr_record shr_1). exact IH.
Qed.

(** Rounding a 53-bit mantissa followed by [k] zero bits is exact. *)
Lemma binary_round_aux_exact m e k :
  Zpos (digits2_pos m) = 53 -> 0 <= k -> -1074 <= e <= 971 ->
  binary_round_aux prec emax false (Zpos (shl_pos m k)) (e - k) loc_Exact
  = S754_finite false m e.
Proof.
  intros Hm Hk He. unfold binary_round_aux, shr_fexp.
  cbn [Zdigits2 shr_record_of_loc]. rewrite (digits_shl m k Hk), Hm.
  replace (fexp prec emax (53 + k + (e - k)) - (e - k)) with k
    by (unfold fexp, SpecFloat.emin, prec, emax; lia).
  assert (Hshr : shr (Build_shr_record (Zpos (shl_pos m k)) false false) (e - k) k
                 = (Build_shr_record (Zpos m) false false, e)).
  { destruct k as [| p | p]; cbn [shr shl_pos]; try lia.
    - f_equal. lia.
    - rewrite iter_pos_eq, shr_iter. f_equal. lia. }
  rewrite Hshr. cbn [shr_m loc_of_shr_record round_nearest_even Zdigits2 shr_record_of_loc].
  rewrite Hm.
  replace (fexp prec emax (53 + e) - e) with 0
    by (unfold fexp, SpecFloat.emin, prec, emax; lia).
  cbn [shr shr_m].
  replace (e <=? emax - prec) with true; [reflexivity |].
  symmetry. apply Z.leb_le. unfold prec, emax. lia.
Qed.

Lemma binary_round_exact q j :
  Zpos (digits2_pos q) <= 53 -> 0 <= j ->
  binary_round prec emax false (shl_pos q j) (- j) = sf_of_pos q.
Proof.
  intros Hq Hj. unfold binary_round, sf_of_pos.
  set (d := Zpos (digits2_pos q)) in *.
  assert (Hd : 1 <= d) by (unfold d; lia).
  rewrite (digits_shl q j Hj). fold d.
  replace (fexp prec emax (d + j + - j)) with (d - 53)
    by (unfold fexp, SpecFloat.emin, prec, emax; lia).
  assert (Hcanon : Zpos (digits2_pos (shl_pos q (53 - d))) = 53).
  { rewrite digits_shl by lia. fold d. lia. }
  unfold shl_align.
  destruct (d - 53 - - j) as [| p | p] eqn:E.
  - replace j with (53 - d) by lia.
    replace (- (53 - d)) with (d - 53 - 0) by lia.
    change (shl_pos q (53 - d)) with (shl_pos (shl_pos q (53 - d)) 0) at 1.
    apply binary_round_aux_exact; [exact Hcanon | lia | lia].
  - replace (shl_pos q j) with (shl_pos (shl_pos q (53 - d)) (Zpos p))
      by (rewrite shl_shl by lia; f_equal; lia).
    replace (- j) with (d - 53 - Zpos p) by lia.
    apply binary_round_aux_exact; [exact Hcanon | lia | lia].
  - replace (Pos.iter xO (shl_pos q j) p) with (shl_pos (shl_pos (shl_pos q j) (Zpos p)) 0)
      by reflexivity.
    rewrite (shl_shl q j (Zpos p)) by lia.
    replace (j + Zpos p) with (53 - d) by lia.
    replace (d - 53) with (d - 53 - 0) at 1 by lia.
    apply binary_round_aux_exact; [exact Hcanon | lia | lia].
Qed.

Lemma sf_of_pos_valid q :
  Zpos (digits2_pos q) <= 53 -> valid_binary (sf_of_pos q) = true.
Proof.
  intros Hq. unfold sf_of_pos, SpecFloat.valid_binary, SpecFloat.bounded, SpecFloat.canonical_mantissa.
  rewrite digits_shl by lia.
  apply andb_true_intro. split.
  - apply Z.eqb_eq. unfold fexp, SpecFloat.emin, prec, emax. lia.
  - apply Z.leb_le. unfold prec, emax. lia.
Qed.

Lemma float_of_pos_sf q :
  Zpos (digits2_pos q) <= 53 -> Prim2SF (float_of_pos q) = sf_of_pos q.
Proof. intros Hq. apply Prim2SF_SF2Prim, sf_of_pos_valid, Hq. Qed.

Lemma shl_align_fst m e ez :
  ez <= e -> fst (shl_align m e ez) = shl_pos m (e - ez).
Proof.
  intros H. unfold shl_align, shl_pos.
  destruct (ez - e) as [| p | p] eqn:E; try lia; cbn [fst].
  - now replace (e - ez) with 0 by lia.
  - now replace (e - ez) with (Zpos p) by lia.
Qed.

Lemma sf_of_pos_add a b :
  Zpos (digits2_pos a) <= 53 -> Zpos (digits2_pos b) <= 53 ->
  Zpos (digits2_pos (a + b)) <= 53 ->
  SFadd prec emax (sf_of_pos a) (sf_of_pos b) = sf_of_pos (a + b).
Proof.
  intros Ha Hb Hab. unfold sf_of_pos at 1 2. cbn [SFadd].
  set (da := Zpos (digits2_pos a)) in *. set (db := Zpos (digits2_pos b)) in *.
  assert (1 <= da) by (unfold da; lia). assert (1 <= db) by (unfold db; lia).
  set (ez := Z.min (da - 53) (db - 53)).
  rewrite !shl_align_fst by (unfold ez; lia).
  rewrite !shl_shl by (unfold ez; lia).
  replace (53 - da + (da - 53 - ez)) with (- ez) by lia.
  replace (53 - db + (db - 53 - ez)) with (- ez) by lia.
  cbn [cond_Zopp Z.add binary_normalize]. rewrite shl_add.
  replace ez with (- - ez) at 2 by lia.
  apply binary_round_exact; [exact Hab | unfold ez; lia].
Qed.

Lemma float_of_pos_add a b :
  Zpos (digits2_pos a) <= 53 -> Zpos (digits2_pos b) <= 53 ->
  Zpos (digits2_pos (a + b)) <= 53 ->
  (float_of_pos a + float_of_pos b)%float = float_of_pos (a + b).
Proof.
  intros Ha Hb Hab. apply Prim2SF_inj.
  rewrite add_spec, !float_of_pos_sf by assumption. now apply sf_of_pos_add.
Qed.

Lemma digits_size q : digits2_pos q = Pos.size q.
Proof. induction q as [q IH | q IH |]; cbn; now rewrite ?IH. Qed.

Lemma digits_bounds q :
  2 ^ (Zpos (digits2_pos q) - 1) <= Zpos q < 2 ^ Zpos (digits2_pos q).
Proof.
  rewrite digits_size. split.
  - pose proof (Pos.size_le q) as H.
    apply Pos2Z.pos_le_pos in H. rewrite Pos2Z.inj_pow in H.
    replace (Zpos (Pos.size q)) with (Z.succ (Zpos (Pos.size q) - 1)) in H by lia.
    rewrite Z.pow_succ_r in H by lia. change (Zpos q~0) with (2 * Zpos q) in H. lia.
  - pose proof (Pos.size_gt q) as H.
    apply Pos2Z.pos_lt_pos in H. now rewrite Pos2Z.inj_pow in H.
Qed.

Lemma digits_le_53 q : Zpos q < 2 ^ 53 -> Zpos (digits2_pos q) <= 53.
Proof.
  intros H. destruct (digits_bounds q) as [Hlo _].
  destruct (Z_le_gt_dec (Zpos (digits2_pos q)) 53) as [Hd | Hd]; [exact Hd |].
  assert (2 ^ 53 <= 2 ^ (Zpos (digits2_pos q) - 1)) by (apply Z.pow_le_mono_r; lia).
  lia.
Qed.

Lemma digits_lt a b :
  Zpos (digits2_pos a) < Zpos (digits2_pos b) -> (a < b)%positive.
Proof.
  intros H. destruct (digits_bounds a) as [_ Ha], (digits_bounds b) as [Hb _].
  assert (2 ^ Zpos (digits2_pos a) <= 2 ^ (Zpos (digits2_pos b) - 1))
    by (apply Z.pow_le_mono_r; lia).
  lia.
Qed.

Lemma sf_of_pos_compare a b :
  SFcompare (sf_of_pos a) (sf_of_pos b) = Some (a ?= b)%positive.
Proof.
  unfold sf_of_pos. cbn [SFcompare]. f_equal.
  destruct (Z.compare_spec (Zpos (digits2_pos a) - 53) (Zpos (digits2_pos b) - 53))
    as [He | He | He].
  - replace (Zpos (digits2_pos b)) with (Zpos (digits2_pos a)) by lia.
    change (Pos.compare_cont Eq ?x ?y) with (Pos.compare x y).
    apply shl_compare.
  - symmetry. apply Pos.compare_lt_iff, digits_lt. lia.
  - symmetry. apply Pos.compare_gt_iff, digits_lt. lia.
Qed.

Ltac order_cases :=
  repeat match goal with
  | |- context [Z.compare ?a ?b] => destruct (Z.compare_spec a b)
  | H : context [Z.compare ?a ?b] |- _ => destruct (Z.compare_spec a b)
  | |- context [Pos.compare_cont Eq ?a ?b] =>
      change (Pos.compare_cont Eq a b) with (Pos.compare a b);
      destruct (Pos.compare_spec a b)
  | H : context [Pos.compare_cont Eq ?a ?b] |- _ =>
      change (Pos.compare_cont Eq a b) with (Pos.compare a b) in H;
      destruct (Pos.compare_spec a b)
  end.

Lemma sf_lt_le_trans x y z :
  SFltb x y = true -> SFleb y z = true -> SFltb x z = true.
Proof.
  unfold SFltb, SFleb.
  destruct x as [sx | sx | | sx mx ex], y as [sy | sy | | sy my ey],
           z as [sz | sz | | sz mz ez];
    cbn [SFcompare]; try discriminate;
    try destruct sx; try destruct sy; try destruct sz;
    try discriminate; try reflexivity;
    order_cases; cbn [CompOpp]; intros; try discriminate; try reflexivity;
    subst; try lia.
Qed.

Lemma sf_le_lt_trans x y z :
  SFleb x y = true -> SFltb y z = true -> SFltb x z = true.
Proof.
  unfold SFltb, SFleb.
  destruct x as [sx | sx | | sx mx ex], y as [sy | sy | | sy my ey],
           z as [sz | sz | | sz mz ez];
    cbn [SFcompare]; try discriminate;
    try destruct sx; try destruct sy; try destruct sz;
    try discriminate; try reflexivity;
    order_cases; cbn [CompOpp]; intros; try discriminate; try reflexivity;
    subst; try lia.
Qed.

End Binary64Integers.

(* ================================================================== *)
(** ** Binary64: the accumulator below [2^53] *)

Section Binary64Accumulator.

Local Open Scope float_scope.
#[local] Set Warnings "-inexact-float".

Lemma b64_float_of_Z_sf (n : Z) :
  (0 < n < 2 ^ 53)%Z ->
  exists q, n = Zpos q /\ Prim2SF (float_of_Z n) = sf_of_pos q.
Proof.
  intros Hn. destruct n as [| q | q]; try lia.
  exists q. split; [reflexivity |]. apply float_of_pos_sf, digits_le_53. lia.
Qed.

Lemma b64_float_of_Z_add_quantum (n : Z) :
  (0 <= n)%Z -> (n + 5 < 2 ^ 53)%Z ->
  float_of_Z n + B64.ENERGY_QUANTUM = float_of_Z (n + 5).
Proof.
  intros Hn Hb. destruct n as [| q | q]; try lia.
  - vm_compute. reflexivity.
  - replace B64.ENERGY_QUANTUM with (float_of_pos 5)
      by (vm_compute; reflexivity).
    change (float_of_Z (Z.pos q + 5)) with (float_of_pos (q + 5)).
    cbn [float_of_Z].
    apply float_of_pos_add; apply digits_le_53; lia.
Qed.

Lemma b64_float_of_Z_compare (a b : Z) :
  (0 <= a < 2 ^ 53)%Z -> (0 <= b < 2 ^ 53)%Z ->
  SFcompare (Prim2SF (float_of_Z a)) (Prim2SF (float_of_Z b))
  = Some (a ?= b)%Z.
Proof.
  intros Ha Hb.
  destruct a as [| qa | qa], b as [| qb | qb]; try lia.
  - reflexivity.
  - destruct (b64_float_of_Z_sf (Zpos qb)) as (q & [= <-] & ->); [lia |].
    reflexivity.
  - destruct (b64_float_of_Z_sf (Zpos qa)) as (q & [= <-] & ->); [lia |].
    reflexivity.
  - destruct (b64_float_of_Z_sf (Zpos qa)) as (q & [= <-] & ->); [lia |].
    destruct (b64_float_of_Z_sf (Zpos qb)) as (q & [= <-] & ->); [lia |].
    apply sf_of_pos_compare.
Qed.

Lemma b64_float_of_Z_ltb (a b : Z) :
  (0 <= a < 2 ^ 53)%Z -> (0 <= b < 2 ^ 53)%Z ->
  (float_of_Z a <? float_of_Z b) = (a <? b)%Z.
Proof.
  intros Ha Hb. rewrite FloatAxioms.ltb_spec. unfold SFltb.
  rewrite (b64_float_of_Z_compare a b Ha Hb). unfold Z.ltb.
  now destruct (a ?= b)%Z.
Qed.

Lemma b64_float_of_Z_leb (a b : Z) :
  (0 <= a < 2 ^ 53)%Z -> (0 <= b < 2 ^ 53)%Z ->
  (float_of_Z a <=? float_of_Z b) = (a <=? b)%Z.
Proof.
  intros Ha Hb. rewrite FloatAxioms.leb_spec. unfold SFleb.
  rewrite (b64_float_of_Z_compare a b Ha Hb). unfold Z.leb.
  now destruct (a ?= b)%Z.
Qed.

Lemma b64_lt_le_trans (x y z : float) :
  (x <? y) = true -> (y <=? z) = true -> (x <? z) = true.
Proof.
  rewrite !FloatAxioms.ltb_spec, FloatAxioms.leb_spec. apply sf_lt_le_trans.
Qed.

Lemma b64_le_lt_trans (x y z : float) :
  (x <=? y) = true -> (y <? z) = true -> (x <? z) = true.
Proof.
  rewrite !FloatAxioms.ltb_spec, FloatAxioms.leb_spec. apply sf_le_lt_trans.
Qed.

Lemma b64_ltb_not_leb (a b : float) : (a <? b) = true -> (b <=? a) = false.
Proof.
  rewrite FloatAxioms.ltb_spec, FloatAxioms.leb_spec. unfold SFltb, SFleb.
  rewrite (sf_compare_antisym (Prim2SF a) (Prim2SF b)).
  destruct (SFcompare (Prim2SF a) (Prim2SF b)) as [[] |]; cbn;
    intros H; try discriminate; reflexivity.
Qed.

Lemma b64_leb_not_ltb (a b : float) : (b <=? a) = true -> (a <? b) = false.
Proof.
  intros H. destruct (a <? b) eqn:E; [| reflexivity].
  apply b64_ltb_not_leb in E. congruence.
Qed.

Lemma b64_ltb_not_nan (a b : float) :
  (a <? b) = true -> is_nan a = false /\ is_nan b = false.
Proof.
  rewrite FloatAxioms.ltb_spec. unfold SFltb. intros H.
  split; apply b64_not_nan_sf; intros Hn; rewrite Hn in H;
    [| destruct (Prim2SF a)]; discriminate.
Qed.

End Binary64Accumulator.

(* ================================================================== *)
(** ** Binary64: the loop on a budget of at most [1e15] *)

Section Binary64ExactRun.

Local Open Scope float_scope.
#[local] Set Warnings "-inexact-float".

Variable p : B64.SystemParameters.
Hypothesis budget_pos : (0 <? B64.energy_budget p) = true.
Hypothesis budget_bound : (B64.energy_budget p <=? 1e15) = true.

Lemma b64_guard_bound (n : Z) :
  (0 <= n < 2 ^ 53)%Z ->
  (float_of_Z n <? B64.energy_budget p) = true -> (n < 10 ^ 15)%Z.
Proof.
  intros Hn Hguard.
  pose proof (b64_lt_le_trans _ _ _ Hguard budget_bound) as H.
  replace 1e15 with (float_of_Z (10 ^ 15)) in H by (vm_compute; reflexivity).
  rewrite b64_float_of_Z_ltb in H by lia. now apply Z.ltb_lt.
Qed.

Lemma b64_guard_mono (i j : Z) :
  (0 <= i <= j)%Z -> (5 * j < 2 ^ 53)%Z ->
  (float_of_Z (5 * j) <? B64.energy_budget p) = true ->
  (float_of_Z (5 * i) <? B64.energy_budget p) = true.
Proof.
  intros Hi Hj Hguard.
  apply (b64_le_lt_trans _ (float_of_Z (5 * j))); [| exact Hguard].
  rewrite b64_float_of_Z_leb by lia. apply Z.leb_le. lia.
Qed.

Lemma b64_guard_search (n : nat) :
  forall j : Z,
    (0 <= j)%Z -> (5 * (j + Z.of_nat n) < 2 ^ 53)%Z ->
    (float_of_Z (5 * j) <? B64.energy_budget p) = true ->
    (float_of_Z (5 * (j + Z.of_nat n)) <? B64.energy_budget p) = false ->
    exists k : Z,
      (j < k <= j + Z.of_nat n)%Z /\
      (float_of_Z (5 * (k - 1)) <? B64.energy_budget p) = true /\
      (float_of_Z (5 * k) <? B64.energy_budget p) = false.
Proof.
  induction n as [| n IH]; intros j Hj Hb Hlo Hhi.
  - replace (j + Z.of_nat 0)%Z with j in Hhi by lia. congruence.
  - destruct (float_of_Z (5 * (j + 1)) <? B64.energy_budget p) eqn:E.
    + destruct (IH (j + 1)%Z) as (k & Hk & Hk1 & Hk2); try lia; try exact E.
      * now replace (j + 1 + Z.of_nat n)%Z with (j + Z.of_nat (S n))%Z by lia.
      * exists k. repeat split; try lia; assumption.
    + exists (j + 1)%Z. repeat split; try lia; try exact E.
      now replace (j + 1 - 1)%Z with j by lia.
Qed.

(** The number of iterations: the [k] with [5 (k - 1) < budget <= 5 k]. *)
Lemma b64_ceil_exists :
  exists k : Z,
    (1 <= k <= 200000000000000)%Z /\
    (float_of_Z (5 * (k - 1)) <? B64.energy_budget p) = true /\
    (float_of_Z (5 * k) <? B64.energy_budget p) = false.
Proof.
  destruct (b64_guard_search (Z.to_nat 200000000000000) 0%Z)
    as (k & Hk & Hk1 & Hk2); try lia.
  - exact budget_pos.
  - rewrite Z2Nat.id by lia. apply b64_leb_not_ltb.
    replace (float_of_Z (5 * (0 + 200000000000000))) with 1e15
      by (vm_compute; reflexivity).
    exact budget_bound.
  - exists k. repeat split; try lia; assumption.
Qed.

Lemma b64_step_energy (s s' : B64.SystemState) (j : Z) :
  (0 <= j)%Z -> (5 * j < 2 ^ 53)%Z ->
  B64.energy_consumed s = float_of_Z (5 * j) ->
  (B64.energy_consumed s <? B64.energy_budget p) = true ->
  B64.apply_energy_step s p B64.ENERGY_QUANTUM = B64.Ok s' ->
  B64.energy_consumed s' = float_of_Z (5 * (j + 1)).
Proof.
  intros Hj Hj53 He Hguard. unfold B64.apply_energy_step.
  rewrite (b64_ltb_not_leb _ _ Hguard).
  destruct (B64.py_div _ _) as [delta | err]; cbn [B64.bind]; [| discriminate].
  destruct (B64.py_pow2 _) as [v2 | err]; cbn [B64.bind]; [| discriminate].
  destruct (B64.py_sqrt _) as [v | err]; cbn [B64.bind]; [| discriminate].
  intros [= <-]. cbn [B64.energy_consumed]. rewrite He.
  rewrite He in Hguard. apply b64_guard_bound in Hguard; [| lia].
  rewrite b64_float_of_Z_add_quantum by lia. f_equal. lia.
Qed.

Lemma b64_exact_run (k : Z) :
  (1 <= k <= 200000000000000)%Z ->
  (float_of_Z (5 * (k - 1)) <? B64.energy_budget p) = true ->
  (float_of_Z (5 * k) <? B64.energy_budget p) = false ->
  forall (n : nat) (j : Z) (s : B64.SystemState) (fuel : nat),
    (0 <= j)%Z -> (j + Z.of_nat n = k)%Z ->
    B64.energy_consumed s = float_of_Z (5 * j) ->
    ((n <= fuel)%nat -> B64.while_loop fuel p s <> None) /\
    (forall s', B64.while_loop fuel p s = Some (B64.Ok s') ->
       (n <= fuel)%nat /\
       B64.energy_consumed s' = float_of_Z (5 * k) /\
       B64.while_loop n p s = Some (B64.Ok s')).
Proof.
  intros Hk Hlast Hexit.
  induction n as [| n IH]; intros j s fuel Hj Hjn He.
  - assert (Hout : (B64.energy_consumed s <? B64.energy_budget p) = false).
    { rewrite He. now replace j with k by lia. }
    assert (Hloop : forall f, B64.while_loop f p s = Some (B64.Ok s)).
    { intros f. destruct f; cbn [B64.while_loop]; now rewrite Hout. }
    rewrite Hloop. split; [discriminate |].
    intros s' [= <-]. repeat split; [lia | | apply Hloop].
    rewrite He. f_equal. lia.
  - assert (Hin : (B64.energy_consumed s <? B64.energy_budget p) = true).
    { rewrite He. apply (b64_guard_mono j (k - 1)); [lia | lia | exact Hlast]. }
    destruct fuel as [| fuel]; cbn [B64.while_loop]; rewrite Hin.
    + split; [lia | discriminate].
    + destruct (B64.apply_energy_step s p B64.ENERGY_QUANTUM)
        as [s1 | err] eqn:Hstep.
      * pose proof (b64_step_energy s s1 j Hj ltac:(lia) He Hin Hstep) as He1.
        destruct (IH (j + 1)%Z s1 fuel ltac:(lia) ltac:(lia) He1) as [Hterm Hok].
        split; [intros Hle; apply Hterm; lia |].
        intros s' Hs'. destruct (Hok s' Hs') as (Hle & Hen & Hrun).
        repeat split; [lia | exact Hen | exact Hrun].
      * split; discriminate.
Qed.

End Binary64ExactRun.

(* ================================================================== *)
(** ** The driver's loop in binary64 *)

Section Binary64Loop.

Local Open Scope float_scope.
#[local] Set Warnings "-inexact-float".

Lemma b64_float_of_Z_not_nan (n : Z) :
  (0 < n < 2 ^ 53)%Z -> is_nan (float_of_Z n) = false.
Proof.
  intros Hn. apply b64_not_nan_sf.
  destruct (b64_float_of_Z_sf n Hn) as (q & _ & ->). discriminate.
Qed.

(** Everything the loop does on a budget in [(0, 1e15]]. *)
Lemma b64_loop_on_bounded_budget (p : B64.SystemParameters) :
  (0 <? B64.energy_budget p) = true ->
  (B64.energy_budget p <=? 1e15) = true ->
  exists k : Z,
    (1 <= k <= 200000000000000)%Z /\
    (float_of_Z (5 * (k - 1)) <? B64.energy_budget p) = true /\
    (B64.energy_budget p <=? float_of_Z (5 * k)) = true /\
    (forall fuel, (Z.to_nat k <= fuel)%nat ->
                  B64.while_loop fuel p B64.SystemState0 <> None) /\
    (forall fuel s',
       B64.while_loop fuel p B64.SystemState0 = Some (B64.Ok s') ->
       (Z.to_nat k <= fuel)%nat /\
       B64.energy_consumed s' = float_of_Z (5 * k) /\
       B64.while_loop (Z.to_nat k) p B64.SystemState0 = Some (B64.Ok s')).
Proof.
  intros Hpos Hbound.
  destruct (b64_ceil_exists p Hpos Hbound) as (k & Hk & Hlast & Hexit).
  exists k. split; [exact Hk |]. split; [exact Hlast |]. split.
  - apply b64_not_ltb_leb; [| | exact Hexit].
    + apply b64_float_of_Z_not_nan. lia.
    + apply (b64_ltb_not_nan _ _ Hpos).
  - pose proof (b64_exact_run p Hbound k Hk Hlast Hexit
                  (Z.to_nat k) 0%Z B64.SystemState0) as Hrun.
    split.
    + intros fuel Hfuel.
      now apply (Hrun fuel ltac:(lia) ltac:(lia) eq_refl).
    + intros fuel s' Hs'.
      now apply (Hrun fuel ltac:(lia) ltac:(lia) eq_refl).
Qed.

(** C4 (as the code has it, in binary64).  With [0 < energy_budget <=
    1e15] the loop of [simulate_system] terminates: let [k] be
    [ceil(energy_budget / quantum)], the integer with
    [5 (k - 1) < energy_budget <= 5 k].  With fuel for [k] iterations the
    loop comes to an end, by a step that raises or by its guard; and when it
    is left by its guard it is after exactly [k] iterations ([k] iterations
    are enough and no smaller number is), each of which has added the
    quantum exactly: [energy_consumed = 5 k]. *)
Theorem b64_while_loop_terminates (p : B64.SystemParameters) :
  (0 <? B64.energy_budget p) = true ->
  (B64.energy_budget p <=? 1e15) = true ->
  exists k : Z,
    (1 <= k <= 200000000000000)%Z /\
    (float_of_Z (5 * (k - 1)) <? B64.energy_budget p) = true /\
    (B64.energy_budget p <=? float_of_Z (5 * k)) = true /\
    (forall fuel, (Z.to_nat k <= fuel)%nat ->
                  B64.while_loop fuel p B64.SystemState0 <> None) /\
    (forall fuel s',
       B64.while_loop fuel p B64.SystemState0 = Some (B64.Ok s') ->
       (Z.to_nat k <= fuel)%nat /\
       B64.energy_consumed s' = float_of_Z (5 * k) /\
       B64.while_loop (Z.to_nat k) p B64.SystemState0 = Some (B64.Ok s')).
Proof. exact (b64_loop_on_bounded_budget p). Qed.

Lemma b64_while_loop_terminates_witness :
  exists k : Z,
    (1 <= k <= 200000000000000)%Z /\
    (float_of_Z (5 * (k - 1)) <? 60) = true /\
    (60 <=? float_of_Z (5 * k)) = true /\
    (forall fuel, (Z.to_nat k <= fuel)%nat ->
       B64.while_loop fuel (B64.mkParams "Agile Robot" 0.5 0.70 60 false)
         B64.SystemState0 <> None) /\
    (forall fuel s',
       B64.while_loop fuel (B64.mkParams "Agile Robot" 0.5 0.70 60 false)
         B64.SystemState0 = Some (B64.Ok s') ->
       (Z.to_nat k <= fuel)%nat /\
       B64.energy_consumed s' = float_of_Z (5 * k) /\
       B64.while_loop (Z.to_nat k) (B64.mkParams "Agile Robot" 0.5 0.70 60 false)
         B64.SystemState0 = Some (B64.Ok s')).
Proof.
  apply (b64_while_loop_terminates (B64.mkParams "Agile Robot" 0.5 0.70 60 false));
    reflexivity.
Defined.

(** C3 (as the code has it, in binary64).  With [0 < energy_budget <=
    1e15] let [k] be the integer with [5 k - 5 < energy_budget <= 5 k].
    Given fuel for [k] iterations [simulate_system] comes to an end (it
    returns a record unless a step raises), and every record it returns
    reports [energy_consumed = 5 k]: a value in
    [[energy_budget, energy_budget + quantum)], at least the budget and over
    it by strictly less than one quantum. *)
Theorem b64_simulate_system_energy_interval (p : B64.SystemParameters) :
  (0 <? B64.energy_budget p) = true ->
  (B64.energy_budget p <=? 1e15) = true ->
  exists k : Z,
    (1 <= k <= 200000000000000)%Z /\
    (float_of_Z (5 * k - 5) <? B64.energy_budget p) = true /\
    (B64.energy_budget p <=? float_of_Z (5 * k)) = true /\
    (forall fuel, (Z.to_nat k <= fuel)%nat ->
                  B64.simulate_system fuel p <> None) /\
    (forall fuel r,
       B64.simulate_system fuel p = Some (B64.Ok r) ->
       B64.res_energy_consumed r = float_of_Z (5 * k)).
Proof.
  intros Hpos Hbound.
  destruct (b64_loop_on_bounded_budget p Hpos Hbound)
    as (k & Hk & Hlast & Hexit & Hterm & Hok).
  exists k. split; [exact Hk |]. split.
  { now replace (5 * k - 5)%Z with (5 * (k - 1))%Z by lia. }
  split; [exact Hexit |]. split.
  - intros fuel Hfuel. specialize (Hterm fuel Hfuel).
    unfold B64.simulate_system.
    destruct (B64.while_loop fuel p B64.SystemState0) as [[s | err] |];
      [discriminate | discriminate | now elim Hterm].
  - intros fuel r. unfold B64.simulate_system.
    destruct (B64.while_loop fuel p B64.SystemState0) as [[s | err] |] eqn:Hloop;
      try discriminate.
    destruct (Hok fuel s Hloop) as (_ & He & _).
    destruct (B64.kinetic_conversion_efficiency s) as [m | err];
      cbn [B64.bind]; [| discriminate].
    now intros [= <-].
Qed.

Lemma b64_simulate_system_energy_interval_witness :
  exists k : Z,
    (1 <= k <= 200000000000000)%Z /\
    (float_of_Z (5 * k - 5) <? 60) = true /\
    (60 <=? float_of_Z (5 * k)) = true /\
    (forall fuel, (Z.to_nat k <= fuel)%nat ->
       B64.simulate_system fuel (B64.mkParams "Agile Robot" 0.5 0.70 60 false)
       <> None) /\
    (forall fuel r,
       B64.simulate_system fuel (B64.mkParams "Agile Robot" 0.5 0.70 60 false)
       = Some (B64.Ok r) ->
       B64.res_energy_consumed r = float_of_Z (5 * k)).
Proof.
  apply (b64_simulate_system_energy_interval
           (B64.mkParams "Agile Robot" 0.5 0.70 60 false));
    reflexivity.
Defined.

End Binary64Loop.

(* ================================================================== *)
(** ** Past [2^53]: counterexamples from the fresh state *)

Section Binary64PastExactness.

Local Open Scope float_scope.
#[local] Set Warnings "-inexact-float".

(** A system with mass 1 and efficiency 0 stays at velocity 0, so that its
    run can be followed symbolically: one step in the exact range. *)
Lemma b64_idle_step (nm : string) (ab : bool) (b : float) (j : Z) :
  (0 <= j)%Z -> (5 * j + 5 < 2 ^ 53)%Z ->
  (float_of_Z (5 * j) <? b) = true ->
  B64.apply_energy_step (B64.mkState 0 (float_of_Z (5 * j)))
    (B64.mkParams nm 1 0 b ab) B64.ENERGY_QUANTUM
  = B64.Ok (B64.mkState 0 (float_of_Z (5 * j + 5))).
Proof.
  intros Hj Hb Hguard. unfold B64.apply_energy_step.
  cbn [B64.energy_budget B64.energy_consumed B64.efficiency B64.mass B64.velocity].
  rewrite (b64_ltb_not_leb _ _ Hguard).
  change (B64.py_div (2 * (0 * B64.ENERGY_QUANTUM)) 1) with (B64.Ok 0%float).
  cbn [B64.bind].
  change (B64.py_pow2 0) with (B64.Ok 0%float). cbn [B64.bind].
  change (B64.py_sqrt (0 + 0)) with (B64.Ok 0%float). cbn [B64.bind].
  now rewrite b64_float_of_Z_add_quantum by lia.
Qed.

(** Its first [(2^53 - 2) / 5] iterations, on any budget above
    [2^53 - 2]. *)
Lemma b64_idle_run (nm : string) (ab : bool) (b : float) :
  (float_of_Z (2 ^ 53 - 2) <? b) = true ->
  forall (n : nat) (j : Z) (extra : nat),
    (0 <= j)%Z -> (5 * (j + Z.of_nat n) = 2 ^ 53 - 2)%Z ->
    B64.while_loop (n + extra) (B64.mkParams nm 1 0 b ab)
      (B64.mkState 0 (float_of_Z (5 * j)))
    = B64.while_loop extra (B64.mkParams nm 1 0 b ab)
        (B64.mkState 0 (float_of_Z (2 ^ 53 - 2))).
Proof.
  intros Hb. induction n as [| n IH]; intros j extra Hj Hjn.
  - cbn [Nat.add]. do 3 f_equal. lia.
  - assert (Hguard : (float_of_Z (5 * j) <? b) = true).
    { apply (b64_le_lt_trans _ (float_of_Z (2 ^ 53 - 2))); [| exact Hb].
      rewrite b64_float_of_Z_leb by lia. apply Z.leb_le. lia. }
    cbn [Nat.add B64.while_loop B64.energy_consumed B64.energy_budget].
    rewrite Hguard, (b64_idle_step nm ab b j Hj ltac:(lia) Hguard).
    replace (5 * j + 5)%Z with (5 * (j + 1))%Z by lia.
    apply IH; lia.
Qed.

(** C3 fails as worded ("for every params with energy_budget > 0").  With
    mass 1, efficiency 0 and budget [2^53 - 1 = 9007199254740991],
    [simulate_system] reports [energy_consumed = 9007199254740996], which is
    the budget plus a full quantum: the last exact sum is [2^53 - 2], below
    the budget, and adding the quantum to it rounds up to [2^53 + 4]. *)
Lemma b64_overshoot_of_a_full_quantum :
  (0 <? 9007199254740991) = true /\
  (exists fuel,
     B64.simulate_system fuel (B64.mkParams "edge" 1 0 9007199254740991 false)
     = Some (B64.Ok (B64.mkResult "edge" 0 9007199254740996 0 false))) /\
  9007199254740996 - 9007199254740991 = 5 /\
  (9007199254740996 <? 9007199254740991 + 5) = false.
Proof.
  split; [reflexivity |]. split; [| split; reflexivity].
  exists (Z.to_nat 1801439850948198 + 1)%nat. unfold B64.simulate_system.
  change B64.SystemState0 with (B64.mkState 0 (float_of_Z (5 * 0))).
  rewrite (b64_idle_run "edge" false 9007199254740991 eq_refl
             (Z.to_nat 1801439850948198) 0%Z 1%nat);
    [| lia | rewrite Z2Nat.id by lia; reflexivity].
  reflexivity.
Qed.

(** C4 fails as worded ("for every params with energy_budget > 0").
    With mass [0.0] the first iteration raises [ZeroDivisionError], so the
    loop is not left after 12 iterations.  And with mass 1, efficiency 0 and
    budget [9007199254741020 = 5 * 1801439850948204] the loop needs
    1801439850948205 iterations, one more than [ceil(budget / quantum)]:
    past [2^53] an iteration adds 4, not 5. *)
Lemma b64_loop_count_fails :
  (forall fuel,
     B64.while_loop (S fuel) (B64.mkParams "massless" 0 0.70 60 false)
       B64.SystemState0 = Some (B64.Raise B64.ZeroDivisionError)) /\
  (5 * 1801439850948203 < 9007199254741020 <= 5 * 1801439850948204)%Z /\
  B64.while_loop (Z.to_nat 1801439850948204)
    (B64.mkParams "edge" 1 0 9007199254741020 false) B64.SystemState0 = None /\
  B64.while_loop (Z.to_nat 1801439850948205)
    (B64.mkParams "edge" 1 0 9007199254741020 false) B64.SystemState0
  = Some (B64.Ok (B64.mkState 0 9007199254741020)).
Proof.
  split; [intros fuel; reflexivity |]. split; [lia |].
  change B64.SystemState0 with (B64.mkState 0 (float_of_Z (5 * 0))).
  split.
  - replace (Z.to_nat 1801439850948204)
      with (Z.to_nat 1801439850948198 + 6)%nat by lia.
    rewrite (b64_idle_run "edge" false 9007199254741020 eq_refl
               (Z.to_nat 1801439850948198) 0%Z 6%nat);
      [| lia | rewrite Z2Nat.id by lia; reflexivity].
    reflexivity.
  - replace (Z.to_nat 1801439850948205)
      with (Z.to_nat 1801439850948198 + 7)%nat by lia.
    rewrite (b64_idle_run "edge" false 9007199254741020 eq_refl
               (Z.to_nat 1801439850948198) 0%Z 7%nat);
      [| lia | rewrite Z2Nat.id by lia; reflexivity].
    reflexivity.
Qed.

End Binary64PastExactness.

(* ================================================================== *)
(** ** Where the accumulator stalls *)

Section Binary64Stall.

Local Open Scope float_scope.
#[local] Set Warnings "-inexact-float".

(** From [2^53] on a quantum is no longer added exactly, and at [2^56] it
    is absorbed. *)
Lemma b64_quantum_rounding :
  (0x1p53 + 5 = 0x1p53 + 4) /\ (0x1p55 + 5 = 0x1p55 + 8) /\
  (0x1p56 + 5 = 0x1p56).
Proof. repeat split; vm_compute; reflexivity. Qed.

(** X6.  A stalled accumulator.  In a state below the budget where adding
    the quantum gives [energy_consumed] again (in binary64 this happens from
    [2^56] on), an iteration that does not raise returns a state with the
    same [energy_consumed], so the loop of [simulate_system] entered there
    is never left by its guard, whatever the number of iterations
    allowed. *)
Theorem b64_while_loop_stalls (fuel : nat) (p : B64.SystemParameters)
    (s s' : B64.SystemState) :
  (B64.energy_consumed s <? B64.energy_budget p) = true ->
  B64.energy_consumed s + B64.ENERGY_QUANTUM = B64.energy_consumed s ->
  B64.while_loop fuel p s <> Some (B64.Ok s').
Proof.
  intros Hguard Hstall. revert s Hguard Hstall.
  induction fuel as [| fuel IH]; intros s Hguard Hstall;
    cbn [B64.while_loop]; rewrite Hguard; [discriminate |].
  destruct (B64.apply_energy_step s p B64.ENERGY_QUANTUM) as [s1 | err] eqn:Hstep;
    [| discriminate].
  assert (He : B64.energy_consumed s1 = B64.energy_consumed s).
  { revert Hstep. unfold B64.apply_energy_step.
    rewrite (b64_ltb_not_leb _ _ Hguard).
    destruct (B64.py_div _ _) as [delta | err]; cbn [B64.bind]; [| discriminate].
    destruct (B64.py_pow2 _) as [v2 | err]; cbn [B64.bind]; [| discriminate].
    destruct (B64.py_sqrt _) as [v | err]; cbn [B64.bind]; [| discriminate].
    intros [= <-]. exact Hstall. }
  apply IH; rewrite He; assumption.
Qed.

Lemma b64_while_loop_stalls_witness :
  B64.while_loop 1000 (B64.mkParams "stalled" 1 0 1e17 false)
    (B64.mkState 0 0x1p56)
  <> Some (B64.Ok (B64.mkState 0 0x1p56)).
Proof.
  apply (b64_while_loop_stalls 1000 (B64.mkParams "stalled" 1 0 1e17 false)
           (B64.mkState 0 0x1p56) (B64.mkState 0 0x1p56));
    reflexivity.
Defined.

End Binary64Stall.
